(** * RAG semantic search: ingest/query orchestration and the bulk loader

    A shallow embedding of [backend/app/main.py], [backend/app/endee_client.py],
    [backend/app/embeddings.py] and [scripts/ingest_docs.py].

    - Python values are an inductive type [Any]; a [dict] is an
      insertion-ordered association list, because [dict.items()] yields
      the entries in insertion order and [_normalize_filter] turns that
      order into the order of the filter clauses.
    - The embedding model and the vector database SDK are external: they
      are a record of functions over an abstract world state, and every
      call to them is appended to a call log with its outcome.
    - Handlers run in a state-and-exception monad: a raised exception
      keeps the effects performed before it.
    - [meta] mappings are objects on a heap, so that [dict(doc.meta or {})]
      is a copy at a fresh address and [meta["snippet"] = ...] is an
      in-place update of that copy.
    - A Python [str] is held as the Rocq string of its UTF-8 bytes, which
      is what a string literal denotes; its characters are counted and
      cut as code points ([str_len], [str_take]). *)

From Stdlib Require Import ZArith String Ascii List Lia Bool DecimalString.
From stdpp Require Import base list strings sorting.
Import ListNotations.

Local Open Scope Z_scope.

(** ** Python values *)

(** A Python [float] is a binary64 value, kept as its 64-bit pattern: the
    program moves vectors around and never computes on their components. *)
Inductive float := Float64 (bits : Z).

#[warnings="-register-all"]
Inductive Any :=
| PyNone
| PyBool (b : bool)
| PyInt (z : Z)
| PyFloat (f : float)
| PyStr (s : string)
| PyList (l : list Any)
| PyDict (d : list (string * Any)).

(** [dict[str, Any]], in insertion order. *)
Abbreviation dict := (list (string * Any)).

(** A dict has each key once. *)
Definition dict_wf (d : dict) : Prop := NoDup (map fst d).

(** [d.get(k)] *)
Fixpoint dict_get (k : string) (d : dict) : option Any :=
  match d with
  | [] => None
  | (k', v) :: d' => if String.eqb k' k then Some v else dict_get k d'
  end.

(** [d[k] = v]: an existing key keeps its position, a new key goes last. *)
Fixpoint dict_setitem (k : string) (v : Any) (d : dict) : dict :=
  match d with
  | [] => [(k, v)]
  | (k', v') :: d' =>
      if String.eqb k' k then (k', v) :: d' else (k', v') :: dict_setitem k v d'
  end.

(** [d.items()] *)
Definition dict_items (d : dict) : list (string * Any) := d.

(** [d.get(k, default)] *)
Definition dict_get_default (k : string) (dflt : Any) (d : dict) : Any :=
  match dict_get k d with
  | Some v => v
  | None => dflt
  end.

(** Truth value of a dict: empty is false. *)
Definition dict_truthy (d : dict) : bool :=
  match d with
  | [] => false
  | _ :: _ => true
  end.

(** Truth value of a [str]: empty is false. *)
Definition str_truthy (s : string) : bool :=
  match s with
  | EmptyString => false
  | String _ _ => true
  end.

Definition vector_value (v : list float) : Any := PyList (map PyFloat v).

(** ** Characters of a string

    A [str] is a sequence of code points. In the UTF-8 bytes of a string
    a character is one byte that is not a continuation byte [10xxxxxx],
    followed by its continuation bytes. Equality, concatenation and order
    of the byte strings are those of the code point sequences, and an
    ASCII character is one byte that occurs only as itself. *)
Definition is_continuation (a : ascii) : bool :=
  let n := nat_of_ascii a in
  ((128 <=? n) && (n <? 192))%nat.

(** [len(s)]: the number of code points. *)
Fixpoint str_len (s : string) : nat :=
  match s with
  | EmptyString => 0%nat
  | String a s' => if is_continuation a then str_len s' else S (str_len s')
  end.

(** [s[:n]] for [n >= 0]: the first [n] code points, whole. *)
Fixpoint str_take (n : nat) (s : string) : string :=
  match s with
  | EmptyString => EmptyString
  | String a s' =>
      if is_continuation a then String a (str_take n s')
      else match n with
           | O => EmptyString
           | S n' => String a (str_take n' s')
           end
  end.

(** [s] is empty or begins with the first byte of a character. *)
Definition starts_char (s : string) : bool :=
  match s with
  | EmptyString => true
  | String a _ => negb (is_continuation a)
  end.

(** ** Snippet derivation (main.py, [ingest]; ingest_docs.py, [load_documents])

    [text[:200] + "..." if len(text) > 200 else text] *)
Definition snippet_of (text : string) : string :=
  if (200 <? str_len text)%nat
  then str_take 200 text +:+ "..."
  else text.

(** ** Filter normalization (endee_client.py) *)

(** [[{k: {"$eq": v}} for k, v in filters.items()]] *)
Definition _normalize_filter (filters : dict) : list Any :=
  map (fun kv => PyDict [(fst kv, PyDict [("$eq", snd kv)])]) (dict_items filters).

(** ** Configuration (config.py)

    The module-level constants, read from the environment once at import. *)
Record Config := {
  ENDEE_BASE_URL : string;
  ENDEE_AUTH_TOKEN : option string;
  INDEX_NAME : string;
  EMBEDDING_MODEL : string;
  EMBEDDING_DIM : Z;
  SPACE_TYPE : string;
}.

(** ** Exceptions and outcomes

    Values of [exn] are instances of Python's [Exception]: what a failing
    call raises and what [except Exception] catches. Interrupts of the
    process ([KeyboardInterrupt], [SystemExit]) are outside the model. *)
Inductive exn :=
| HTTPException (status_code : Z) (detail : string)
| RequestValidationError (field : string) (msg : string)
| CollaboratorError (msg : string).

Inductive outcome (A : Type) :=
| Ok (a : A)
| Raise (e : exn).
Arguments Ok {A} a.
Arguments Raise {A} e.

(** ** The external collaborators

    [Endee] is the SDK's client object, known here by how the code made
    it and not by what the SDK keeps inside: the [token] argument given to
    the constructor ([None] for [Endee()]) and the URL last given to
    [set_base_url] ([None] before any). *)
Record Endee := {
  token_argument : option string;
  base_url_argument : option string;
}.

(** [Endee(token=t)], and [Endee()] for [None] *)
Definition Endee_new (token : option string) : Endee :=
  {| token_argument := token; base_url_argument := None |}.

(** [client.set_base_url(url)] *)
Definition set_base_url (c : Endee) (url : string) : Endee :=
  {| token_argument := token_argument c; base_url_argument := Some url |}.

(** The embedding model ([sentence_transformers]) and the vector database
    ([endee]) as functions over a world state they own. [encode] results
    are taken after [tolist()]. *)
Record Collaborators := {
  World : Type;
  Model : Type;
  Index : Type;
  Precision : Type;
  INT8 : Precision;
  SentenceTransformer : string -> World -> outcome Model * World;
  encode : Model -> string -> World -> outcome (list float) * World;
  encode_batch : Model -> list string -> World -> outcome (list (list float)) * World;
  get_index : Endee -> string -> World -> outcome Index * World;
  create_index :
    Endee -> string -> Z -> string -> Precision -> World -> outcome unit * World;
  upsert : Index -> list Any -> World -> outcome unit * World;
  index_query : Index -> dict -> World -> outcome (list dict) * World;
}.

(** ** Request models (main.py) *)

(** A reference to a dict object on the heap. *)
Definition addr := nat.

Record DocumentInput := {
  doc_id : string;
  doc_text : string;
  doc_meta : option addr;
}.

Record IngestRequest := {
  documents : list DocumentInput;
}.

Record QueryRequest := {
  query_text : string;
  top_k : Z;
  filters : option dict;
}.

(** The JSON body of [POST /query] before validation: a field may be absent. *)
Record QueryBody := {
  body_query_text : option string;
  body_top_k : option Z;
  body_filters : option dict;
}.

(** [query_text: str = Field(...)], [top_k: int = Field(default=5, ge=1, le=50)],
    [filters: Optional[dict] = Field(default=None)]: a required field, a
    default with a lower and an upper bound, an optional field. The first
    failing constraint is the one reported. *)
Definition validate_QueryRequest (b : QueryBody) : outcome QueryRequest :=
  match body_query_text b with
  | None => Raise (RequestValidationError "query_text" "Field required")
  | Some q =>
      let k := match body_top_k b with
               | None => 5
               | Some k => k
               end in
      if negb (1 <=? k) then
        Raise (RequestValidationError "top_k" "Input should be greater than or equal to 1")
      else if negb (k <=? 50) then
        Raise (RequestValidationError "top_k" "Input should be less than or equal to 50")
      else
        Ok {| query_text := q; top_k := k; filters := body_filters b |}
  end.

(** ** The orchestration layer *)

Section Orchestration.

Variable cfg : Config.
Variable C : Collaborators.

(** One entry of the call log: the call made to a collaborator, with its
    arguments and its outcome. *)
Inductive call :=
| CallSentenceTransformer (name : string) (r : outcome (Model C))
| CallEncode (model : Model C) (text : string) (r : outcome (list float))
| CallEncodeBatch (model : Model C) (texts : list string) (r : outcome (list (list float)))
| CallGetIndex (client : Endee) (name : string) (r : outcome (Index C))
| CallCreateIndex (client : Endee) (name : string) (dimension : Z)
    (space_type : string) (precision : Precision C) (r : outcome unit)
| CallUpsert (index : Index C) (records : list Any) (r : outcome unit)
| CallQuery (index : Index C) (kwargs : dict) (r : outcome (list dict)).

(** The process state: the module global [_model] of embeddings.py, the
    heap of dict objects, the collaborators' world and the call log. *)
Record State := {
  _model : option (Model C);
  heap : list dict;
  world : World C;
  calls : list call;
}.

Definition M (A : Type) : Type := State -> outcome A * State.

Definition ret {A} (a : A) : M A := fun st => (Ok a, st).

Definition bind {A B} (c : M A) (k : A -> M B) : M B :=
  fun st =>
    match c st with
    | (Ok a, st') => k a st'
    | (Raise e, st') => (Raise e, st')
    end.

Definition raise {A} (e : exn) : M A := fun st => (Raise e, st).

(** [try: c  except Exception: h] *)
Definition try_except {A} (c : M A) (h : M A) : M A :=
  fun st =>
    match c st with
    | (Ok a, st') => (Ok a, st')
    | (Raise _, st') => h st'
    end.

Notation "x <- c ;; k" := (bind c (fun x => k))
  (at level 100, c at next level, right associativity).
Notation "c ;;; k" := (bind c (fun _ => k))
  (at level 100, right associativity).

(** A call to a collaborator: run it on the world, log it with its outcome. *)
Definition external {A} (f : World C -> outcome A * World C)
    (entry : outcome A -> call) : M A :=
  fun st =>
    let (r, w) := f (world st) in
    (r, {| _model := _model st; heap := heap st; world := w;
           calls := calls st ++ [entry r] |}).

Definition get_global_model : M (option (Model C)) :=
  fun st => (Ok (_model st), st).

Definition set_global_model (m : Model C) : M unit :=
  fun st => (Ok tt, {| _model := Some m; heap := heap st; world := world st;
                       calls := calls st |}).

(** Heap of dict objects: allocation appends, an address is an index. *)
Definition heap_new (d : dict) : M addr :=
  fun st => (Ok (length (heap st)),
             {| _model := _model st; heap := heap st ++ [d]; world := world st;
                calls := calls st |}).

(** Reading through a reference. Python has no dangling references; an
    address that is not allocated reads as the empty dict, and the
    statements below ask the references of a request to be allocated. *)
Definition deref (h : list dict) (a : addr) : dict := default [] (h !! a).

Definition heap_read (a : addr) : M dict :=
  fun st => (Ok (deref (heap st) a), st).

(** [obj[k] = v] on the object at [a]: an update in place, seen through
    every reference to [a]. *)
Definition heap_setitem (a : addr) (k : string) (v : Any) : M unit :=
  fun st => (Ok tt,
             {| _model := _model st;
                heap := <[a := dict_setitem k v (deref (heap st) a)]> (heap st);
                world := world st; calls := calls st |}).

Definition get_heap : M (list dict) := fun st => (Ok (heap st), st).

(** *** embeddings.py *)

Definition _get_model : M (Model C) :=
  cur <- get_global_model ;;
  match cur with
  | None =>
      m <- external (SentenceTransformer C (EMBEDDING_MODEL cfg))
             (CallSentenceTransformer (EMBEDDING_MODEL cfg)) ;;
      set_global_model m ;;;
      ret m
  | Some m => ret m
  end.

Definition embed_text (text : string) : M (list float) :=
  model <- _get_model ;;
  external (encode C model text) (CallEncode model text).

Definition embed_texts (texts : list string) : M (list (list float)) :=
  model <- _get_model ;;
  external (encode_batch C model texts) (CallEncodeBatch model texts).

(** *** endee_client.py *)

Definition _get_client : Endee :=
  let client :=
    match ENDEE_AUTH_TOKEN cfg with
    | Some tok => if str_truthy tok then Endee_new (Some tok) else Endee_new None
    | None => Endee_new None
    end in
  set_base_url client (ENDEE_BASE_URL cfg).

Definition client_get_index (client : Endee) (name : string) : M (Index C) :=
  external (get_index C client name) (CallGetIndex client name).

Definition ensure_index_exists : M unit :=
  let client := _get_client in
  try_except
    (client_get_index client (INDEX_NAME cfg) ;;; ret tt)
    (external
       (create_index C client (INDEX_NAME cfg) (EMBEDDING_DIM cfg) (SPACE_TYPE cfg) (INT8 C))
       (CallCreateIndex client (INDEX_NAME cfg) (EMBEDDING_DIM cfg) (SPACE_TYPE cfg) (INT8 C))).

(** An item of [vectors_with_metadata]: [{"id": .., "vector": .., "meta": ..}],
    whose ["meta"] refers to a dict object. *)
Record VectorRecord := {
  rec_id : string;
  rec_vector : list float;
  rec_meta : addr;
}.

(** The item as the SDK reads it when it is handed over. *)
Definition record_value (h : list dict) (r : VectorRecord) : Any :=
  PyDict [("id", PyStr (rec_id r));
          ("vector", vector_value (rec_vector r));
          ("meta", PyDict (deref h (rec_meta r)))].

Definition upsert_documents (vectors_with_metadata : list VectorRecord) : M unit :=
  let client := _get_client in
  index <- client_get_index client (INDEX_NAME cfg) ;;
  h <- get_heap ;;
  let records := map (record_value h) vectors_with_metadata in
  external (upsert C index records) (CallUpsert index records).

Definition filters_truthy (filters : option dict) : bool :=
  match filters with
  | None => false
  | Some f => dict_truthy f
  end.

Definition query_kwargs (vector : list float) (top_k : Z) (filters : option dict) : dict :=
  let kwargs := [("vector", vector_value vector); ("top_k", PyInt top_k)] in
  match filters with
  | Some f =>
      if dict_truthy f
      then dict_setitem "filter" (PyList (_normalize_filter f)) kwargs
      else kwargs
  | None => kwargs
  end.

Definition query_similar (vector : list float) (top_k : Z) (filters : option dict)
    : M (list dict) :=
  let client := _get_client in
  index <- client_get_index client (INDEX_NAME cfg) ;;
  let kwargs := query_kwargs vector top_k filters in
  external (index_query C index kwargs) (CallQuery index kwargs).

(** *** main.py *)

(** [doc.meta or {}] *)
Definition meta_or_empty (m : option addr) : M addr :=
  match m with
  | None => heap_new []
  | Some a =>
      d <- heap_read a ;;
      if dict_truthy d then ret a else heap_new []
  end.

(** [dict(x)]: a new dict object with the entries of [x]. *)
Definition dict_copy (a : addr) : M addr :=
  d <- heap_read a ;;
  heap_new d.

(** The body of [for doc, vector in zip(request.documents, vectors)]. *)
Fixpoint ingest_loop (pairs : list (DocumentInput * list float))
    (vectors_with_metadata : list VectorRecord) : M (list VectorRecord) :=
  match pairs with
  | [] => ret vectors_with_metadata
  | (doc, vector) :: rest =>
      src <- meta_or_empty (doc_meta doc) ;;
      meta <- dict_copy src ;;
      let snippet := snippet_of (doc_text doc) in
      heap_setitem meta "snippet" (PyStr snippet) ;;;
      ingest_loop rest
        (vectors_with_metadata ++
           [{| rec_id := doc_id doc; rec_vector := vector; rec_meta := meta |}])
  end.

Definition ingest (request : IngestRequest) : M dict :=
  match documents request with
  | [] => raise (HTTPException 400 "No documents provided")
  | _ :: _ =>
      let texts := map doc_text (documents request) in
      vectors <- embed_texts texts ;;
      vectors_with_metadata <- ingest_loop (zip (documents request) vectors) [] ;;
      upsert_documents vectors_with_metadata ;;;
      ret [("status", PyStr "ok");
           ("ingested", PyInt (Z.of_nat (length (documents request))))]
  end.

Definition query (request : QueryRequest) : M dict :=
  query_vector <- embed_text (query_text request) ;;
  results <- query_similar query_vector (top_k request) (filters request) ;;
  ret [("results", PyList (map PyDict results))].

(** [POST /query]: the parameter [request: QueryRequest] makes the
    framework validate the body against the model, answer the validation
    error without calling the handler, and call the handler on the
    validated model otherwise. *)
Definition post_query (body : QueryBody) : M dict :=
  match validate_QueryRequest body with
  | Raise e => raise e
  | Ok request => query request
  end.

(** The startup half of [lifespan]. *)
Definition lifespan_startup : M unit :=
  embed_text "warmup" ;;;
  ensure_index_exists.

(** *** Vocabulary for the statements below *)

Definition with_heap (st : State) (h : list dict) : State :=
  {| _model := _model st; heap := h; world := world st; calls := calls st |}.

(** The entries [dict(doc.meta or {})] starts from. *)
Definition meta_content (h : list dict) (doc : DocumentInput) : dict :=
  match doc_meta doc with
  | None => []
  | Some a => deref h a
  end.

(** Every [meta] reference of the request points to an allocated object. *)
Definition allocated (h : list dict) (request : IngestRequest) : Prop :=
  forall doc a, In doc (documents request) -> doc_meta doc = Some a -> (a < length h)%nat.

(** The record built for [pair] in a loop started on heap [h] and ended
    on heap [h']: its ["meta"] is a new object holding the snippet. *)
Definition built_from (h h' : list dict) (pair : DocumentInput * list float)
    (r : VectorRecord) : Prop :=
  rec_id r = doc_id (fst pair) /\
  rec_vector r = snd pair /\
  (length h <= rec_meta r)%nat /\
  exists d,
    h' !! rec_meta r = Some (dict_setitem "snippet" (PyStr (snippet_of (doc_text (fst pair)))) d) /\
    ((forall a, doc_meta (fst pair) = Some a -> (a < length h)%nat) ->
     d = meta_content h (fst pair)).

Definition is_encode_call (c : call) : bool :=
  match c with
  | CallEncode _ _ _ | CallEncodeBatch _ _ _ => true
  | _ => false
  end.

Definition is_upsert_call (c : call) : bool :=
  match c with
  | CallUpsert _ _ _ => true
  | _ => false
  end.

(** [{"status": "ok", "ingested": len(request.documents)}] *)
Definition ingest_response (request : IngestRequest) : dict :=
  [("status", PyStr "ok");
   ("ingested", PyInt (Z.of_nat (length (documents request))))].

(** The provider's contract for a batch: one vector per text. *)
Definition one_vector_per_text : Prop :=
  forall m texts w vs w',
    encode_batch C m texts w = (Ok vs, w') -> length vs = length texts.

End Orchestration.

Arguments _model {C} s.
Arguments heap {C} s.
Arguments world {C} s.
Arguments calls {C} s.

(** ** The bulk loader (scripts/ingest_docs.py) *)

Module IngestDocs.

(** An entry of the docs directory as [iterdir()] yields it, with the
    text [read_text] returns for it. The model covers a directory that is
    listed and whose files are read without error: an [OSError] of the
    file system, which would leave the script before any document is
    built, has no value here. *)
Record DirEntry := {
  entry_name : string;
  entry_is_file : bool;
  entry_text : string;        (* [read_text(encoding="utf-8", errors="replace")] *)
}.

(** Classes of the exceptions the script can meet. [ConnectionError] and
    [HTTPError] are subclasses of [RequestException]; [RequestException]
    stands for its other subclasses too; [OtherException] is outside the
    hierarchy of [requests]. *)
Inductive exc_class := ConnectionError | HTTPError | RequestException | OtherException.

Definition isinstance_ConnectionError (c : exc_class) : bool :=
  match c with
  | ConnectionError => true
  | _ => false
  end.

Definition isinstance_RequestException (c : exc_class) : bool :=
  match c with
  | ConnectionError | HTTPError | RequestException => true
  | OtherException => false
  end.

(** A raised exception: its class, [str(e)], and [e.response.text] when
    [e.response] is set. *)
Record PyExc := {
  exc_cls : exc_class;
  exc_str : string;
  exc_response_text : option string;
}.

Inductive json_result :=
| JsonValue (data : Any)
| JsonRaises (e : PyExc).

Record Response := {
  status_code : Z;
  reason : string;
  url : string;
  text : string;
  json : json_result;
}.

Inductive post_result :=
| PostReturns (resp : Response)
| PostRaises (e : PyExc).

(** What the script runs in: the docs directory ([None]: it does not
    exist), the HTTP endpoint behind [requests.post], and the builtins
    [str.title] and [str]. *)
Record Environment := {
  DOCS_DIR : string;
  docs_dir : option (list DirEntry);
  requests_post : string -> Any -> Z -> post_result;
  str_title : string -> string;
  py_str : Any -> string;
}.

Definition API_BASE : string := "http://localhost:8000".

(** [s.rfind(c)] *)
Fixpoint rfind (c : ascii) (s : string) : option nat :=
  match s with
  | EmptyString => None
  | String a s' =>
      match rfind c s' with
      | Some i => Some (S i)
      | None => if Ascii.eqb a c then Some 0%nat else None
      end
  end.

(** [PurePath.suffix]: [name[i:]] when [0 < i < len(name) - 1] for
    [i = name.rfind('.')], else empty. *)
Definition path_suffix (name : string) : string :=
  match rfind "." name with
  | Some i =>
      if (0 <? i)%nat && (S i <? String.length name)%nat
      then substring i (String.length name - i) name
      else ""
  | None => ""
  end.

(** [PurePath.stem] *)
Definition path_stem (name : string) : string :=
  match rfind "." name with
  | Some i =>
      if (0 <? i)%nat && (S i <? String.length name)%nat
      then substring 0 i name
      else name
  | None => name
  end.

(** [str.lower] as the suffix test reads it: the ASCII capitals become
    small letters. Units from 192 to 222 move within the units above 127,
    and no unit above 127 becomes, or stops being, an ASCII character, so
    the comparison with [.md], [.txt] and [.rst] is that of the code. *)
Definition lower_char (a : ascii) : ascii :=
  let n := nat_of_ascii a in
  if ((65 <=? n) && (n <=? 90) || (192 <=? n) && (n <=? 222) && negb (n =? 215))%nat
  then ascii_of_nat (n + 32)
  else a.

Fixpoint str_lower (s : string) : string :=
  match s with
  | EmptyString => EmptyString
  | String a s' => String (lower_char a) (str_lower s')
  end.

(** [s.replace(old, new)] for single characters *)
Fixpoint str_replace (old new : ascii) (s : string) : string :=
  match s with
  | EmptyString => EmptyString
  | String a s' => String (if Ascii.eqb a old then new else a) (str_replace old new s')
  end.

(** [sorted(...)] of the entries of one directory: by name. *)
Fixpoint insert_sorted (e : DirEntry) (l : list DirEntry) : list DirEntry :=
  match l with
  | [] => [e]
  | x :: l' =>
      if String.ltb (entry_name e) (entry_name x)
      then e :: x :: l'
      else x :: insert_sorted e l'
  end.

Definition sorted (l : list DirEntry) : list DirEntry :=
  fold_left (fun acc e => insert_sorted e acc) l [].

(** A document as [load_documents] builds it:
    [{"id": .., "text": .., "meta": {"title": .., "source": .., "snippet": ..}}] *)
Record Document := {
  id : string;
  d_text : string;
  meta : dict;
}.

Definition wanted_suffix (name : string) : bool :=
  let s := str_lower (path_suffix name) in
  String.eqb s ".md" || String.eqb s ".txt" || String.eqb s ".rst".

Section Script.

Variable env : Environment.

Definition document_of (e : DirEntry) : Document :=
  let text := entry_text e in
  let doc_id := path_stem (entry_name e) in
  let title :=
    str_title env (str_replace "_" " " (str_replace "-" " " (path_stem (entry_name e)))) in
  let snippet := snippet_of text in
  {| id := doc_id;
     d_text := text;
     meta := [("title", PyStr title); ("source", PyStr (entry_name e));
              ("snippet", PyStr snippet)] |}.

(** Returns the documents and the lines printed. *)
Definition load_documents : list Document * list string :=
  match docs_dir env with
  | None => ([], ["Docs directory not found: " +:+ DOCS_DIR env])
  | Some entries =>
      (map document_of
         (filter (fun e => entry_is_file e && wanted_suffix (entry_name e))
            (sorted entries)),
       [])
  end.

Definition payload_of (docs : list Document) : Any :=
  PyDict [("documents",
           PyList (map (fun d => PyDict [("id", PyStr (id d));
                                         ("text", PyStr (d_text d));
                                         ("meta", PyDict (meta d))]) docs))].

(** [Response.raise_for_status] *)
Definition raise_for_status (resp : Response) : option PyExc :=
  let status := status_code resp in
  let msg :=
    if (400 <=? status) && (status <? 500) then
      py_str env (PyInt status) +:+ " Client Error: " +:+ reason resp
        +:+ " for url: " +:+ url resp
    else if (500 <=? status) && (status <? 600) then
      py_str env (PyInt status) +:+ " Server Error: " +:+ reason resp
        +:+ " for url: " +:+ url resp
    else "" in
  if (400 <=? status) && (status <? 600)
  then Some {| exc_cls := HTTPError; exc_str := msg; exc_response_text := Some (text resp) |}
  else None.

(** How [main] ends: it returns a status, or an exception leaves it. *)
Inductive ending :=
| Returns (status : Z)
| Uncaught (e : PyExc).

(** A run of the script: how it ends, the lines printed, and the calls
    made to [requests.post] (url, payload, timeout). *)
Record Run := {
  ended : ending;
  stdout : list string;
  posts : list (string * Any * Z);
}.

(** [type(v).__name__] *)
Definition type_name (v : Any) : string :=
  match v with
  | PyNone => "NoneType"
  | PyBool _ => "bool"
  | PyInt _ => "int"
  | PyFloat _ => "float"
  | PyStr _ => "str"
  | PyList _ => "list"
  | PyDict _ => "dict"
  end.

(** The body of the [try] block: an exception raised in it, or the
    status returned, with the lines printed. A body that is JSON but not
    an object has no [get]: [AttributeError]. *)
Definition try_body (docs : list Document) (result : post_result)
    : (PyExc + Z) * list string :=
  match result with
  | PostRaises e => (inl e, [])
  | PostReturns resp =>
      match raise_for_status resp with
      | Some e => (inl e, [])
      | None =>
          match json resp with
          | JsonRaises e => (inl e, [])
          | JsonValue (PyDict data) =>
              let n := dict_get_default "ingested" (PyInt (Z.of_nat (length docs))) data in
              (inr 0, ["Ingested " +:+ py_str env n +:+ " documents."])
          | JsonValue other =>
              (inl {| exc_cls := OtherException;
                      exc_str := "'" +:+ type_name other
                                   +:+ "' object has no attribute 'get'";
                      exc_response_text := None |}, [])
          end
      end
  end.

Definition CONNECT_MESSAGE : string :=
  "Error: Could not connect to the API. Is the backend running on port 8000?".

Definition main : Run :=
  let (docs, printed) := load_documents in
  match docs with
  | [] =>
      {| ended := Returns 1;
         stdout := printed ++ ["No documents found to ingest."];
         posts := [] |}
  | _ :: _ =>
      let payload := payload_of docs in
      let call := (API_BASE +:+ "/ingest", payload, 60) in
      let (r, out) := try_body docs (requests_post env (API_BASE +:+ "/ingest") payload 60) in
      match r with
      | inr status =>
          {| ended := Returns status; stdout := printed ++ out; posts := [call] |}
      | inl e =>
          if isinstance_ConnectionError (exc_cls e) then
            {| ended := Returns 1;
               stdout := printed ++ out ++ [CONNECT_MESSAGE];
               posts := [call] |}
          else if isinstance_RequestException (exc_cls e) then
            {| ended := Returns 1;
               stdout := printed ++ out ++ ["Error: " +:+ exc_str e]
                           ++ match exc_response_text e with
                              | Some t => [t]
                              | None => []
                              end;
               posts := [call] |}
          else
            {| ended := Uncaught e; stdout := printed ++ out; posts := [call] |}
      end
  end.

(** [sys.exit(main())]; an exception that leaves [main] ends the
    interpreter with status 1. *)
Definition exit_status : Z :=
  match ended main with
  | Returns status => status
  | Uncaught _ => 1
  end.

(** *** Vocabulary for the statements below *)

(** The outcome of the one [requests.post] call of [main]. *)
Definition the_post : post_result :=
  requests_post env (API_BASE +:+ "/ingest") (payload_of (fst load_documents)) 60.

Definition no_documents : Prop := fst load_documents = [].

Definition http_error (resp : Response) : Prop :=
  400 <= status_code resp < 600.

(** The request failed: [requests.post] raised, or the response carries
    an error status. *)
Definition request_failed : Prop :=
  (exists e, the_post = PostRaises e) \/
  (exists resp, the_post = PostReturns resp /\ http_error resp).

Definition connection_failure : Prop :=
  ~ no_documents /\ exists e, the_post = PostRaises e /\ exc_cls e = ConnectionError.

Definition http_failure : Prop :=
  ~ no_documents /\ exists resp, the_post = PostReturns resp /\ http_error resp.

(** The request succeeded: a response without error status whose body is
    a JSON object, as [POST /ingest] answers. *)
Definition request_succeeded : Prop :=
  ~ no_documents /\
  exists resp data,
    the_post = PostReturns resp /\ ~ http_error resp /\ json resp = JsonValue (PyDict data).

End Script.

End IngestDocs.

(** ** Concrete collaborators for running the model

    The defaults of config.py, and stand-ins for the two collaborators in
    the manner of the spec's end-to-end test: a deterministic embedding
    and a vector store that is a list of records, absent until created. *)

Definition default_config : Config :=
  {| ENDEE_BASE_URL := "http://localhost:8080/api/v1";
     ENDEE_AUTH_TOKEN := None;
     INDEX_NAME := "documents";
     EMBEDDING_MODEL := "sentence-transformers/all-MiniLM-L6-v2";
     EMBEDDING_DIM := 384;
     SPACE_TYPE := "cosine" |}.

Definition float_one : float := Float64 4607182418800017408.
Definition float_zero : float := Float64 0.

Definition stub_embedding (text : string) : list float :=
  if String.eqb text "hello world" then [float_one; float_zero]
  else [float_zero; float_one].

Definition stub_results : list dict :=
  [[("id", PyStr "a"); ("similarity", PyFloat float_one)];
   [("id", PyStr "b"); ("similarity", PyFloat float_zero)]].

Definition stub : Collaborators :=
  {| World := option (list Any);
     Model := string;
     Index := string;
     Precision := bool;
     INT8 := true;
     SentenceTransformer := fun name w => (Ok name, w);
     encode := fun _ text w => (Ok (stub_embedding text), w);
     encode_batch := fun _ texts w => (Ok (map stub_embedding texts), w);
     get_index := fun _ name w =>
       match w with
       | Some _ => (Ok name, w)
       | None => (Raise (CollaboratorError "index not found"), w)
       end;
     create_index := fun _ _ _ _ _ w => (Ok tt, Some []);
     upsert := fun _ records w =>
       match w with
       | Some stored => (Ok tt, Some (stored ++ records))
       | None => (Raise (CollaboratorError "index not found"), w)
       end;
     index_query := fun _ _ w => (Ok stub_results, w) |}.

(** A process whose index exists, with one [meta] object on the heap,
    and one whose index does not exist yet. *)
Definition demo_state : State stub :=
  {| _model := None;
     heap := [[("source", PyStr "a.md"); ("snippet", PyStr "supplied")]];
     world := (Some [] : World stub);
     calls := [] |}.

Definition fresh_state : State stub :=
  {| _model := None; heap := []; world := (None : World stub); calls := [] |}.

Definition demo_ingest : IngestRequest :=
  {| documents :=
       [{| doc_id := "a"; doc_text := "hello world"; doc_meta := Some 0%nat |};
        {| doc_id := "b"; doc_text := "goodbye world"; doc_meta := None |}] |}.

Definition demo_record : Any :=
  PyDict [("id", PyStr "a");
          ("vector", vector_value [float_one; float_zero]);
          ("meta", PyDict [("source", PyStr "a.md"); ("snippet", PyStr "hello world")])].

Definition demo_query : QueryRequest :=
  {| query_text := "hello"; top_k := 5; filters := Some [("source", PyStr "a.md")] |}.

Definition demo_ingest_run : outcome dict * State stub :=
  ingest default_config stub demo_ingest demo_state.

Definition demo_query_run : outcome dict * State stub :=
  query default_config stub demo_query demo_state.

Module LoaderDemo.
Import IngestDocs.

Definition ok_response : Response :=
  {| status_code := 200; reason := "OK"; url := "http://localhost:8000/ingest";
     text := "ingested";
     json := JsonValue (PyDict [("status", PyStr "ok"); ("ingested", PyInt 1)]) |}.

Definition error_response : Response :=
  {| status_code := 500; reason := "Internal Server Error";
     url := "http://localhost:8000/ingest";
     text := "Internal Server Error";
     json := JsonRaises {| exc_cls := RequestException;
                           exc_str := "Expecting value: line 1 column 1 (char 0)";
                           exc_response_text := None |} |}.

Definition connection_refused : PyExc :=
  {| exc_cls := ConnectionError; exc_str := "Connection refused";
     exc_response_text := None |}.

Definition stub_str (v : Any) : string :=
  match v with
  | PyInt z => NilZero.string_of_int (Z.to_int z)
  | PyStr s => s
  | _ => "?"
  end.

Definition one_file : list DirEntry :=
  [{| entry_name := "notes"; entry_is_file := false; entry_text := "" |};
   {| entry_name := "b-file.TXT"; entry_is_file := true; entry_text := "goodbye world" |};
   {| entry_name := "a_file.md"; entry_is_file := true; entry_text := "hello world" |};
   {| entry_name := "image.png"; entry_is_file := true; entry_text := "" |}].

Definition env_with (dir : option (list DirEntry)) (answer : post_result) : Environment :=
  {| DOCS_DIR := "data/docs";
     docs_dir := dir;
     requests_post := fun _ _ _ => answer;
     str_title := fun s => s;
     py_str := stub_str |}.

Definition env_ok : Environment := env_with (Some one_file) (PostReturns ok_response).
Definition env_http_error : Environment := env_with (Some one_file) (PostReturns error_response).
Definition env_down : Environment := env_with (Some one_file) (PostRaises connection_refused).
Definition env_no_dir : Environment := env_with None (PostReturns ok_response).

End LoaderDemo.


(** ** The rest of config.py, embeddings.py and main.py *)

(** [os.environ]: a mapping from names to values. *)
Abbreviation environ := (list (string * string)).

(** [os.environ.get(key, default)] *)
Fixpoint _get_env (key default : string) (env : environ) : string :=
  match env with
  | [] => default
  | (k, v) :: env' => if String.eqb k key then v else _get_env key default env'
  end.

(** [_get_env("ENDEE_AUTH_TOKEN", "") or None] *)
Definition ENDEE_AUTH_TOKEN_of (env : environ) : option string :=
  let v := _get_env "ENDEE_AUTH_TOKEN" "" env in
  if str_truthy v then Some v else None.

Record ApiConfig := {
  API_HOST : string;
  API_PORT : Z;
}.

(** The module body of config.py on an environment. [int] is the builtin
    [int] on a string: [None] when it raises [ValueError], which aborts the
    import. [EMBEDDING_DIM] is converted before [API_PORT]. *)
Definition load_config (int : string -> option Z) (env : environ)
    : option (Config * ApiConfig) :=
  let base_url := _get_env "ENDEE_BASE_URL" "http://localhost:8080/api/v1" env in
  let token := ENDEE_AUTH_TOKEN_of env in
  let index_name := _get_env "ENDEE_INDEX_NAME" "documents" env in
  let model := _get_env "EMBEDDING_MODEL" "sentence-transformers/all-MiniLM-L6-v2" env in
  match int (_get_env "EMBEDDING_DIM" "384" env) with
  | None => None
  | Some dim =>
      let space := _get_env "ENDEE_SPACE_TYPE" "cosine" env in
      let host := _get_env "API_HOST" "0.0.0.0" env in
      match int (_get_env "API_PORT" "8000" env) with
      | None => None
      | Some port =>
          Some ({| ENDEE_BASE_URL := base_url;
                   ENDEE_AUTH_TOKEN := token;
                   INDEX_NAME := index_name;
                   EMBEDDING_MODEL := model;
                   EMBEDDING_DIM := dim;
                   SPACE_TYPE := space |},
                {| API_HOST := host; API_PORT := port |})
      end
  end.

(** [get_embedding_dim()] *)
Definition get_embedding_dim (cfg : Config) : Z := EMBEDDING_DIM cfg.

(** [GET /health] *)
Definition health : dict := [("status", PyStr "ok"); ("service", PyStr "rag-search")].

(** Kinds of log entries. *)
Definition is_constructor_call (C : Collaborators) (c : call C) : bool :=
  match c with
  | CallSentenceTransformer _ _ _ => true
  | _ => false
  end.

Definition is_store_call (C : Collaborators) (c : call C) : bool :=
  match c with
  | CallGetIndex _ _ _ _ | CallCreateIndex _ _ _ _ _ _ _
  | CallUpsert _ _ _ _ | CallQuery _ _ _ _ => true
  | _ => false
  end.

(** Calls that write to the vector store. *)
Definition is_write_call (C : Collaborators) (c : call C) : bool :=
  match c with
  | CallCreateIndex _ _ _ _ _ _ _ | CallUpsert _ _ _ _ => true
  | _ => false
  end.

Definition is_create_call (C : Collaborators) (c : call C) : bool :=
  match c with
  | CallCreateIndex _ _ _ _ _ _ _ => true
  | _ => false
  end.

(** The keys of a dict, in order. *)
Definition dict_keys (d : dict) : list string := map fst d.

(** [key in d] *)
Definition dict_contains (k : string) (d : dict) : bool :=
  match dict_get k d with
  | Some _ => true
  | None => false
  end.


(** Vocabulary for the statements about the bulk loader. *)

(** The order of [sorted] on the entries of one directory. *)
Definition by_name (e1 e2 : IngestDocs.DirEntry) : Prop :=
  String.leb (IngestDocs.entry_name e1) (IngestDocs.entry_name e2) = true.

(** The files [load_documents] keeps. *)
Definition is_document_file (e : IngestDocs.DirEntry) : bool :=
  IngestDocs.entry_is_file e && IngestDocs.wanted_suffix (IngestDocs.entry_name e).

(** The same environment with another listing of the docs directory. *)
Definition with_listing (env : IngestDocs.Environment) (entries : list IngestDocs.DirEntry)
    : IngestDocs.Environment :=
  {| IngestDocs.DOCS_DIR := IngestDocs.DOCS_DIR env;
     IngestDocs.docs_dir := Some entries;
     IngestDocs.requests_post := IngestDocs.requests_post env;
     IngestDocs.str_title := IngestDocs.str_title env;
     IngestDocs.py_str := IngestDocs.py_str env |}.

(** A document of the loader as a request document whose [meta] is the
    object at [a]. *)
Definition as_input (d : IngestDocs.Document) (a : addr) : DocumentInput :=
  {| doc_id := IngestDocs.id d; doc_text := IngestDocs.d_text d; doc_meta := Some a |}.


(** Further stand-ins: a provider whose encode calls raise, a provider
    that returns one vector too few for a batch, the builtin [int] on the
    two defaults, and an environment that sets a token. *)

Definition failing_stub : Collaborators :=
  {| World := World stub;
     Model := Model stub;
     Index := Index stub;
     Precision := Precision stub;
     INT8 := INT8 stub;
     SentenceTransformer := SentenceTransformer stub;
     encode := fun _ _ w => (Raise (CollaboratorError "out of memory"), w);
     encode_batch := fun _ _ w => (Raise (CollaboratorError "out of memory"), w);
     get_index := get_index stub;
     create_index := create_index stub;
     upsert := upsert stub;
     index_query := index_query stub |}.

Definition failing_state : State failing_stub :=
  {| _model := None; heap := []; world := (None : World failing_stub); calls := [] |}.

Definition truncating_stub : Collaborators :=
  {| World := World stub;
     Model := Model stub;
     Index := Index stub;
     Precision := Precision stub;
     INT8 := INT8 stub;
     SentenceTransformer := SentenceTransformer stub;
     encode := encode stub;
     encode_batch := fun _ texts w => (Ok (map stub_embedding (removelast texts)), w);
     get_index := get_index stub;
     create_index := create_index stub;
     upsert := upsert stub;
     index_query := index_query stub |}.

Definition truncating_state : State truncating_stub :=
  {| _model := None;
     heap := heap demo_state;
     world := (Some [] : World truncating_stub);
     calls := [] |}.

Definition stub_int (s : string) : option Z :=
  if String.eqb s "384" then Some 384
  else if String.eqb s "8000" then Some 8000
  else None.

Definition demo_environ : environ :=
  [("ENDEE_AUTH_TOKEN", "secret"); ("ENDEE_INDEX_NAME", "notes")].

Definition demo_query_body : QueryBody :=
  {| body_query_text := Some "hello"; body_top_k := None; body_filters := None |}.

(** The first document of the loader's demo directory, as the server
    receives it. *)
Definition loader_entry : IngestDocs.DirEntry :=
  {| IngestDocs.entry_name := "a_file.md"; IngestDocs.entry_is_file := true;
     IngestDocs.entry_text := "hello world" |}.

Definition loader_state : State stub :=
  {| _model := None;
     heap := [IngestDocs.meta (IngestDocs.document_of LoaderDemo.env_ok loader_entry)];
     world := (Some [] : World stub);
     calls := [] |}.

Definition loader_request : IngestRequest :=
  {| documents :=
       [as_input (IngestDocs.document_of LoaderDemo.env_ok loader_entry) 0%nat] |}.


(** Runs of the stand-ins, named for the statements about them. *)

Definition started_state : State stub :=
  snd (lifespan_startup default_config stub fresh_state).

Definition started_query_run : outcome dict * State stub :=
  query default_config stub demo_query started_state.

Definition failing_warmup_run : outcome (list float) * State failing_stub :=
  embed_text default_config failing_stub "warmup" failing_state.

Definition truncating_run : outcome dict * State truncating_stub :=
  ingest default_config truncating_stub demo_ingest truncating_state.

Definition loader_run : outcome dict * State stub :=
  ingest default_config stub loader_request loader_state.

Definition demo_post_query_run : outcome dict * State stub :=
  post_query default_config stub demo_query_body demo_state.

Definition environ_config : Config :=
  {| ENDEE_BASE_URL := "http://localhost:8080/api/v1";
     ENDEE_AUTH_TOKEN := Some "secret";
     INDEX_NAME := "notes";
     EMBEDDING_MODEL := "sentence-transformers/all-MiniLM-L6-v2";
     EMBEDDING_DIM := 384;
     SPACE_TYPE := "cosine" |}.

Definition environ_api : ApiConfig := {| API_HOST := "0.0.0.0"; API_PORT := 8000 |}.


(** * Properties *)

(** ** Strings and dicts *)

Lemma substring_0_length_min (n : nat) (s : string) :
  String.length (substring 0 n s) = Nat.min n (String.length s).
Proof.
  revert s.
  induction n as [|n IH]; intros [|c s]; simpl; try reflexivity.
  f_equal. apply IH.
Qed.

Lemma str_take_len (n : nat) (s : string) :
  str_len (str_take n s) = Nat.min n (str_len s).
Proof.
  revert n. induction s as [|a s IH]; intros n; simpl.
  - destruct n; reflexivity.
  - destruct (is_continuation a) eqn:Ha; simpl.
    + rewrite Ha. apply IH.
    + destruct n as [|n]; simpl; [reflexivity|]. rewrite Ha, IH. reflexivity.
Qed.

Lemma str_take_prefix (n : nat) (s : string) :
  exists rest, s = str_take n s +:+ rest /\ starts_char rest = true.
Proof.
  revert n. induction s as [|a s IH]; intros n; simpl.
  - exists EmptyString. split; reflexivity.
  - destruct (is_continuation a) eqn:Ha.
    + destruct (IH n) as (rest & Hrest & Hstart). exists rest. split; [|exact Hstart].
      change (String a s = String a (str_take n s +:+ rest)). congruence.
    + destruct n as [|n].
      * exists (String a s). split; [reflexivity|]. simpl. rewrite Ha. reflexivity.
      * destruct (IH n) as (rest & Hrest & Hstart). exists rest. split; [|exact Hstart].
        change (String a s = String a (str_take n s +:+ rest)). congruence.
Qed.

Lemma str_len_append (s t : string) : str_len (s +:+ t) = (str_len s + str_len t)%nat.
Proof.
  induction s as [|a s IH]; [reflexivity|].
  change (str_len (String a (s +:+ t)) = (str_len (String a s) + str_len t)%nat).
  simpl. destruct (is_continuation a); rewrite IH; reflexivity.
Qed.

Lemma str_take_append (s t : string) :
  starts_char t = true -> str_take (str_len s) (s +:+ t) = s.
Proof.
  intros Hstart. induction s as [|a s IH].
  - change (str_take 0 t = EmptyString). destruct t as [|b t]; [reflexivity|].
    simpl in *. destruct (is_continuation b); [discriminate | reflexivity].
  - change (str_take (str_len (String a s)) (String a (s +:+ t)) = String a s).
    simpl. destruct (is_continuation a); rewrite IH; reflexivity.
Qed.

Lemma dict_get_setitem_eq (k : string) (v : Any) (d : dict) :
  dict_get k (dict_setitem k v d) = Some v.
Proof.
  induction d as [|[k' v'] d IH]; simpl.
  - rewrite String.eqb_refl. reflexivity.
  - destruct (String.eqb k' k) eqn:E; simpl; rewrite E; [reflexivity | exact IH].
Qed.

Lemma dict_get_setitem_ne (k k' : string) (v : Any) (d : dict) :
  k' <> k -> dict_get k' (dict_setitem k v d) = dict_get k' d.
Proof.
  intros Hne. induction d as [|[k0 v0] d IH]; simpl.
  - destruct (String.eqb k k') eqn:E; [|reflexivity].
    apply String.eqb_eq in E. congruence.
  - destruct (String.eqb k0 k) eqn:E; simpl.
    + apply String.eqb_eq in E. subst k0.
      destruct (String.eqb k k') eqn:E'; [|reflexivity].
      apply String.eqb_eq in E'. congruence.
    + rewrite IH. reflexivity.
Qed.

Lemma dict_setitem_wf (k : string) (v : Any) (d : dict) :
  dict_wf d -> dict_wf (dict_setitem k v d).
Proof.
  unfold dict_wf. induction d as [|[k0 v0] d IH]; simpl; intros Hwf.
  - apply NoDup_singleton.
  - apply NoDup_cons in Hwf as [Hnotin Hnd].
    destruct (String.eqb k0 k) eqn:E; simpl.
    + apply NoDup_cons; split; assumption.
    + apply NoDup_cons. split; [|apply IH; exact Hnd].
      apply String.eqb_neq in E.
      intros Hin. apply Hnotin. clear -Hin E.
      induction d as [|[k1 v1] d IHd]; simpl in *.
      * apply list_elem_of_singleton in Hin. congruence.
      * destruct (String.eqb k1 k) eqn:E1; simpl in *; [exact Hin|].
        apply elem_of_cons in Hin as [->|Hin]; [left | right; apply IHd; exact Hin].
Qed.

Lemma dict_get_Some_lookup (k : string) (v : Any) (d : dict) :
  dict_get k d = Some v -> exists i, d !! i = Some (k, v).
Proof.
  induction d as [|[k' v'] d IH]; simpl; [discriminate|].
  destruct (String.eqb k' k) eqn:E.
  - intros [= ->]. apply String.eqb_eq in E. subst k'. exists 0%nat. reflexivity.
  - intros H. destruct (IH H) as [i Hi]. exists (S i). exact Hi.
Qed.

Lemma dict_get_In (k : string) (v : Any) (d : dict) :
  dict_wf d -> In (k, v) d -> dict_get k d = Some v.
Proof.
  unfold dict_wf. induction d as [|[k' v'] d IH]; simpl; [intros _ []|].
  intros Hwf Hin. apply NoDup_cons in Hwf as [Hnotin Hnd].
  destruct Hin as [[= -> ->] | Hin].
  - rewrite String.eqb_refl. reflexivity.
  - destruct (String.eqb k' k) eqn:E; [|apply IH; assumption].
    apply String.eqb_eq in E. subst k'. exfalso. apply Hnotin.
    apply list_elem_of_In. apply (in_map fst) in Hin. exact Hin.
Qed.

Lemma dict_key_index_unique (d : dict) (i j : nat) (k : string) (v v' : Any) :
  dict_wf d -> d !! i = Some (k, v) -> d !! j = Some (k, v') -> i = j.
Proof.
  unfold dict_wf. intros Hwf Hi Hj.
  change (map fst d) with (fst <$> d) in Hwf.
  apply (NoDup_lookup (fst <$> d) i j k Hwf); rewrite list_lookup_fmap.
  - rewrite Hi. reflexivity.
  - rewrite Hj. reflexivity.
Qed.

(** ** The claim about filter normalization *)

(** C3. For a filter mapping (a dict, each key once), normalization
    yields one clause per entry, in the order of the entries: for every
    key [k] with value [v] there is exactly one clause on [k], and it is
    the single-key mapping [{k: {"$eq": v}}]; every clause is of that
    form; and [{"source": "a.md"}] becomes [[{"source": {"$eq": "a.md"}}]]. *)
Theorem normalize_filter_equality_clauses (filters : dict) :
  dict_wf filters ->
  length (_normalize_filter filters) = length filters /\
  (forall i k v,
     filters !! i = Some (k, v) ->
     _normalize_filter filters !! i = Some (PyDict [(k, PyDict [("$eq", v)])])) /\
  (forall k v,
     dict_get k filters = Some v ->
     exists i,
       _normalize_filter filters !! i = Some (PyDict [(k, PyDict [("$eq", v)])]) /\
       forall j cond,
         _normalize_filter filters !! j = Some (PyDict [(k, cond)]) -> j = i) /\
  (forall c,
     In c (_normalize_filter filters) ->
     exists k v, dict_get k filters = Some v /\ c = PyDict [(k, PyDict [("$eq", v)])]) /\
  _normalize_filter [("source", PyStr "a.md")] =
    [PyDict [("source", PyDict [("$eq", PyStr "a.md")])]].
Proof.
  intros Hwf.
  assert (Hith : forall i k v, filters !! i = Some (k, v) ->
            _normalize_filter filters !! i = Some (PyDict [(k, PyDict [("$eq", v)])])).
  { intros i k v Hi. unfold _normalize_filter, dict_items.
    change (map ?f filters) with (f <$> filters).
    rewrite list_lookup_fmap, Hi. reflexivity. }
  split; [apply length_map|]. split; [exact Hith|]. split; [|split; [|reflexivity]].
  - intros k v Hget. destruct (dict_get_Some_lookup _ _ _ Hget) as [i Hi].
    exists i. split; [apply Hith; exact Hi|].
    intros j cond Hj. unfold _normalize_filter, dict_items in Hj.
    change (map ?f filters) with (f <$> filters) in Hj.
    apply list_lookup_fmap_Some in Hj as ([k' v'] & [= <- _] & Hj).
    exact (dict_key_index_unique _ _ _ _ _ _ Hwf Hj Hi).
  - intros c Hin. unfold _normalize_filter, dict_items in Hin.
    apply in_map_iff in Hin as ([k v] & <- & Hin).
    exists k, v. split; [apply dict_get_In; assumption | reflexivity].
Qed.


(** ** The ingest loop *)

Section OrchestrationFacts.

Variable cfg : Config.
Variable C : Collaborators.

Implicit Types (st : State C) (h objs : list dict) (a : addr).

Lemma bind_Ok {A B} (c : M C A) (k : A -> M C B) st (x : A) st' :
  c st = (Ok x, st') -> bind C c k st = k x st'.
Proof. intros H. unfold bind. rewrite H. reflexivity. Qed.

Lemma bind_assoc {A B D} (c : M C A) (f : A -> M C B) (g : B -> M C D) st :
  bind C c (fun x => bind C (f x) g) st = bind C (bind C c f) g st.
Proof.
  unfold bind. destruct (c st) as [[x|e] st']; [|reflexivity].
  destruct (f x st') as [[y|e] st'']; reflexivity.
Qed.

Lemma deref_app_l h objs a :
  (a < length h)%nat -> deref (h ++ objs) a = deref h a.
Proof.
  intros Hlt. unfold deref. rewrite lookup_app_l by exact Hlt. reflexivity.
Qed.

Lemma deref_fresh h objs d :
  deref (h ++ objs ++ [d]) (length (h ++ objs)) = d.
Proof.
  unfold deref. rewrite app_assoc.
  rewrite list_lookup_middle by reflexivity. reflexivity.
Qed.

(** [dict(doc.meta or {})]: a new object with the entries of the
    document's [meta], after at most one discarded empty dict. *)
Lemma copy_meta_spec (doc : DocumentInput) st :
  exists junk,
    bind C (meta_or_empty C (doc_meta doc)) (dict_copy C) st =
      (Ok (length (heap st ++ junk)),
       with_heap C st (heap st ++ junk ++ [meta_content (heap st) doc])).
Proof.
  unfold meta_content, meta_or_empty, dict_copy, bind, heap_read, heap_new, ret, with_heap.
  destruct (doc_meta doc) as [a|]; simpl.
  - destruct (dict_truthy (deref (heap st) a)) eqn:E; simpl.
    + exists []. rewrite app_nil_r. reflexivity.
    + exists [[]]. simpl.
      assert (Hd : deref (heap st) a = []) by (destruct (deref (heap st) a); [reflexivity|discriminate]).
      rewrite Hd.
      replace (deref (heap st ++ [[]]) (length (heap st))) with ([] : dict).
      * rewrite <- app_assoc. reflexivity.
      * unfold deref. rewrite list_lookup_middle by reflexivity. reflexivity.
  - exists [[]]. simpl.
    replace (deref (heap st ++ [[]]) (length (heap st))) with ([] : dict).
    + rewrite <- app_assoc. reflexivity.
    + unfold deref. rewrite list_lookup_middle by reflexivity. reflexivity.
Qed.

Lemma built_from_weaken h o1 o2 (p : DocumentInput * list float) (r : VectorRecord) :
  built_from (h ++ o1) ((h ++ o1) ++ o2) p r ->
  built_from h (h ++ o1 ++ o2) p r.
Proof.
  intros (Hid & Hvec & Hge & d & Hd & Hcontent).
  repeat split; try assumption.
  - rewrite length_app in Hge. lia.
  - exists d. split.
    + rewrite app_assoc. exact Hd.
    + intros Hwf. rewrite Hcontent.
      * unfold meta_content. destruct (doc_meta (fst p)) as [a|]; [|reflexivity].
        apply deref_app_l. apply Hwf. reflexivity.
      * intros a Ha. rewrite length_app. specialize (Hwf a Ha). lia.
Qed.

(** The loop never raises, touches only the heap, and only extends it:
    each pair gets a record whose ["meta"] is a new object. *)
Lemma ingest_loop_spec (pairs : list (DocumentInput * list float)) :
  forall (acc : list VectorRecord) st,
  exists recs objs,
    ingest_loop C pairs acc st = (Ok (acc ++ recs), with_heap C st (heap st ++ objs)) /\
    Forall2 (built_from (heap st) (heap st ++ objs)) pairs recs.
Proof.
  induction pairs as [|[doc vector] rest IH]; intros acc st.
  - exists [], []. simpl. unfold ret, with_heap. rewrite !app_nil_r.
    destruct st; simpl. split; [reflexivity | constructor].
  - destruct (copy_meta_spec doc st) as [junk Hcopy].
    set (x := dict_setitem "snippet" (PyStr (snippet_of (doc_text doc)))
                (meta_content (heap st) doc)).
    set (r := {| rec_id := doc_id doc; rec_vector := vector;
                 rec_meta := length (heap st ++ junk) |}).
    set (st1 := with_heap C st (heap st ++ junk ++ [x])).
    destruct (IH (acc ++ [r]) st1) as (recs & objs & Hrun & Hbuilt).
    exists (r :: recs), (junk ++ [x] ++ objs). split.
    + simpl.
      rewrite (bind_assoc (meta_or_empty C (doc_meta doc)) (dict_copy C)).
      rewrite (bind_Ok _ _ _ _ _ Hcopy).
      unfold bind at 1. unfold heap_setitem. simpl.
      rewrite deref_fresh.
      replace (<[length (heap st ++ junk) := x]> (heap st ++ junk ++ [meta_content (heap st) doc]))
        with (heap st ++ junk ++ [x]).
      * transitivity (ingest_loop C rest (acc ++ [r]) st1); [reflexivity|].
        rewrite Hrun. f_equal.
        -- rewrite <- app_assoc. reflexivity.
        -- unfold st1, with_heap. simpl. rewrite <- !app_assoc. reflexivity.
      * rewrite !app_assoc. rewrite <- (Nat.add_0_r (length (heap st ++ junk))).
        rewrite insert_app_r. reflexivity.
    + constructor.
      * unfold built_from. simpl. repeat split.
        -- rewrite length_app. lia.
        -- exists (meta_content (heap st) doc). split; [|reflexivity].
           rewrite (app_assoc (heap st) junk).
           apply list_lookup_middle. reflexivity.
      * eapply Forall2_impl; [exact Hbuilt|].
        intros p r0 Hb. unfold st1 in Hb. simpl in Hb.
        replace (junk ++ [x] ++ objs) with ((junk ++ [x]) ++ objs)
          by (rewrite <- app_assoc; reflexivity).
        apply built_from_weaken. exact Hb.
Qed.

(** ** Runs of the handlers *)

(** Loading the model logs at most the constructor call and leaves the heap alone. *)
Lemma _get_model_spec st (r : outcome (Model C)) st' :
  _get_model cfg C st = (r, st') ->
  exists load,
    calls st' = calls st ++ load /\ heap st' = heap st /\
    filter (is_encode_call C) load = [] /\ filter (is_upsert_call C) load = [].
Proof.
  unfold _get_model, bind, get_global_model, external, set_global_model, ret.
  destruct (_model st) as [m|].
  - intros [= <- <-]. exists []. rewrite app_nil_r. repeat split; reflexivity.
  - destruct (SentenceTransformer C (EMBEDDING_MODEL cfg) (world st)) as [[m|e] w];
      intros [= <- <-]; simpl; eexists; repeat split; reflexivity.
Qed.

Lemma external_spec {A} (f : World C -> outcome A * World C) (entry : outcome A -> call C)
    st (r : outcome A) st' :
  external C f entry st = (r, st') ->
  calls st' = calls st ++ [entry r] /\ heap st' = heap st /\
  exists w, f (world st) = (r, w).
Proof.
  unfold external. destruct (f (world st)) as [r0 w] eqn:E.
  intros [= <- <-]. simpl. repeat split. exists w. reflexivity.
Qed.

Lemma bind_inv {A B} (c : M C A) (k : A -> M C B) st (res : outcome B) st' :
  bind C c k st = (res, st') ->
  (exists e, c st = (Raise e, st') /\ res = Raise e) \/
  (exists x st1, c st = (Ok x, st1) /\ k x st1 = (res, st')).
Proof.
  unfold bind. destruct (c st) as [[x|e] st1].
  - intros H. right. exists x, st1. split; [reflexivity | exact H].
  - intros [= <- <-]. left. exists e. split; reflexivity.
Qed.

(** A run of [ingest] on a non-empty request: either it raises before
    any upsert, or it makes the three calls encode-batch, get-index,
    upsert, with one record per (document, vector) pair. *)
Lemma ingest_run (request : IngestRequest) st (res : outcome dict) st' :
  documents request <> [] ->
  ingest cfg C request st = (res, st') ->
  exists new objs,
    calls st' = calls st ++ new /\ heap st' = heap st ++ objs /\
    ((filter (is_upsert_call C) new = [] /\ exists e, res = Raise e) \/
     (exists load m vectors idx recs r w w',
        new = load ++
              [CallEncodeBatch C m (map doc_text (documents request)) (Ok vectors);
               CallGetIndex C (_get_client cfg) (INDEX_NAME cfg) (Ok idx);
               CallUpsert C idx (map (record_value (heap st')) recs) r] /\
        filter (is_upsert_call C) load = [] /\
        filter (is_encode_call C) load = [] /\
        encode_batch C m (map doc_text (documents request)) w = (Ok vectors, w') /\
        Forall2 (built_from (heap st) (heap st'))
          (zip (documents request) vectors) recs /\
        res = match r with
              | Ok _ => Ok (ingest_response request)
              | Raise e => Raise e
              end)).
Proof.
  intros Hne. unfold ingest.
  destruct (documents request) as [|d0 ds] eqn:Hdocs; [congruence|].
  rewrite <- Hdocs. clear Hne.
  intros Hrun.
  apply bind_inv in Hrun as [(e & Hembed & ->) | (vectors & st1 & Hembed & Hrun)].
  - (* embedding raised *)
    unfold embed_texts in Hembed.
    apply bind_inv in Hembed as [(e' & Hmodel & [= <-]) | (m & st0 & Hmodel & Hencode)].
    + apply _get_model_spec in Hmodel as (load & Hc & Hh & _ & Hup).
      exists load, []. rewrite app_nil_r. repeat split; try assumption.
      left. split; [exact Hup | eauto].
    + apply _get_model_spec in Hmodel as (load & Hc & Hh & _ & Hup).
      apply external_spec in Hencode as (Hc' & Hh' & _).
      exists (load ++ [CallEncodeBatch C m (map doc_text (documents request)) (Raise e)]), [].
      rewrite app_nil_r. rewrite Hc', Hc, Hh', Hh, <- app_assoc. repeat split.
      left. split; [|eauto].
      rewrite filter_app, Hup. reflexivity.
  - (* embedding returned [vectors] *)
    unfold embed_texts in Hembed.
    apply bind_inv in Hembed as [(e' & _ & [=]) | (m & st0 & Hmodel & Hencode)].
    apply _get_model_spec in Hmodel as (load & Hc0 & Hh0 & Henc & Hup).
    apply external_spec in Hencode as (Hc1 & Hh1 & w' & Hbatch).
    destruct (ingest_loop_spec (zip (documents request) vectors) [] st1)
      as (recs & objs & Hloop & Hbuilt).
    rewrite (bind_Ok _ _ _ _ _ Hloop) in Hrun. simpl app in Hrun.
    apply bind_inv in Hrun as [(e & Hupsert & ->) | ([] & st3 & Hupsert & [= <- <-])];
      unfold upsert_documents in Hupsert;
      apply bind_inv in Hupsert as [(e' & Hget & He) | (idx & st2 & Hget & Hupsert)];
      apply external_spec in Hget as (Hc2 & Hh2 & _).
    + (* get_index raised *)
      injection He as <-.
      exists (load ++ [CallEncodeBatch C m (map doc_text (documents request)) (Ok vectors);
                       CallGetIndex C (_get_client cfg) (INDEX_NAME cfg) (Raise e)]), objs.
      rewrite Hc2, Hh2. simpl. rewrite Hc1, Hc0, Hh1, Hh0, <- !app_assoc.
      repeat split. left. split; [|eauto].
      rewrite filter_app, Hup. reflexivity.
    + (* upsert raised *)
      unfold bind, get_heap in Hupsert.
      apply external_spec in Hupsert as (Hc3 & Hh3 & _).
      exists (load ++ [CallEncodeBatch C m (map doc_text (documents request)) (Ok vectors);
                       CallGetIndex C (_get_client cfg) (INDEX_NAME cfg) (Ok idx);
                       CallUpsert C idx (map (record_value (heap st')) recs) (Raise e)]), objs.
      rewrite Hc3, Hc2. rewrite Hh3, Hh2. simpl. rewrite Hc1, Hc0, Hh1, Hh0, <- !app_assoc.
      repeat split. right.
      exists load, m, vectors, idx, recs, (Raise e), (world st0), w'.
      repeat split; try assumption.
      rewrite Hh1, Hh0 in Hbuilt. exact Hbuilt.
    + discriminate He.
    + unfold bind, get_heap in Hupsert.
      apply external_spec in Hupsert as (Hc3 & Hh3 & _).
      exists (load ++ [CallEncodeBatch C m (map doc_text (documents request)) (Ok vectors);
                       CallGetIndex C (_get_client cfg) (INDEX_NAME cfg) (Ok idx);
                       CallUpsert C idx (map (record_value (heap st3)) recs) (Ok tt)]), objs.
      rewrite Hc3, Hc2. rewrite Hh3, Hh2. simpl. rewrite Hc1, Hc0, Hh1, Hh0, <- !app_assoc.
      repeat split. right.
      exists load, m, vectors, idx, recs, (Ok tt), (world st0), w'.
      repeat split; try assumption.
      rewrite Hh1, Hh0 in Hbuilt. exact Hbuilt.
Qed.

Lemma calls_delta_unique st st' (new new' : list (call C)) :
  calls st' = calls st ++ new -> calls st' = calls st ++ new' -> new = new'.
Proof. intros H1 H2. rewrite H1 in H2. exact (app_inv_head _ _ _ H2). Qed.

Lemma not_in_filtered (p : call C -> bool) (c : call C) (l : list (call C)) :
  filter p l = [] -> p c = true -> ~ In c l.
Proof.
  intros Hnil Hp Hin. apply list_elem_of_In in Hin.
  assert (Hc : c ∈ filter p l).
  { apply list_elem_of_filter. split; [rewrite Hp; exact I | exact Hin]. }
  rewrite Hnil in Hc. inversion Hc.
Qed.

(** Whenever a run of [ingest] logs an upsert, its batch is the list of
    records built by the loop from the zipped documents and vectors. *)
Lemma ingest_upsert_batch (request : IngestRequest) st (res : outcome dict) st'
    (new : list (call C)) (idx : Index C) (records : list Any) (r : outcome unit) :
  ingest cfg C request st = (res, st') ->
  calls st' = calls st ++ new ->
  In (CallUpsert C idx records r) new ->
  exists m vectors recs w w',
    encode_batch C m (map doc_text (documents request)) w = (Ok vectors, w') /\
    records = map (record_value (heap st')) recs /\
    Forall2 (built_from (heap st) (heap st')) (zip (documents request) vectors) recs /\
    filter (is_upsert_call C) new = [CallUpsert C idx records r] /\
    res = match r with
          | Ok _ => Ok (ingest_response request)
          | Raise e => Raise e
          end.
Proof.
  intros Hrun Hcalls Hin.
  destruct (documents request) as [|d0 ds] eqn:Hdocs.
  - unfold ingest in Hrun. rewrite Hdocs in Hrun. injection Hrun as _ <-.
    rewrite <- (app_nil_r (calls st)) in Hcalls at 1.
    apply app_inv_head in Hcalls. subst new. destruct Hin.
  - rewrite <- Hdocs.
    destruct (ingest_run request st res st') as (new0 & objs & Hc & Hh & Hcases);
      [congruence | exact Hrun |].
    rewrite (calls_delta_unique _ _ _ _ Hcalls Hc) in *. clear Hcalls new.
    destruct Hcases as [[Hnone _] |
      (load & m & vectors & idx0 & recs & r0 & w & w' & -> & Hup & _ & Hbatch & Hbuilt & ->)].
    + exfalso. exact (not_in_filtered _ (CallUpsert C idx records r) _ Hnone eq_refl Hin).
    + apply in_app_or in Hin as [Hin | Hin].
      * exfalso. exact (not_in_filtered _ (CallUpsert C idx records r) _ Hup eq_refl Hin).
      * destruct Hin as [Hin | [Hin | [Hin | []]]]; try discriminate Hin.
        injection Hin as <- <- <-.
        exists m, vectors, recs, w, w'. repeat split; try assumption.
        rewrite filter_app, Hup. reflexivity.
Qed.

(** The record at position [i] of a batch built by the loop. *)
Lemma built_record_lookup h h' (docs : list DocumentInput) (vectors : list (list float))
    (recs : list VectorRecord) (i : nat) (rec : Any) :
  Forall2 (built_from h h') (zip docs vectors) recs ->
  map (record_value h') recs !! i = Some rec ->
  exists doc vector d,
    docs !! i = Some doc /\ vectors !! i = Some vector /\
    rec = PyDict [("id", PyStr (doc_id doc));
                  ("vector", vector_value vector);
                  ("meta", PyDict (dict_setitem "snippet"
                                     (PyStr (snippet_of (doc_text doc))) d))] /\
    ((forall a, doc_meta doc = Some a -> (a < length h)%nat) -> d = meta_content h doc).
Proof.
  intros Hbuilt Hrec.
  change (map (record_value h') recs) with (record_value h' <$> recs) in Hrec.
  apply list_lookup_fmap_Some in Hrec as (r & -> & Hr).
  destruct (Forall2_lookup_r _ _ _ _ _ Hbuilt Hr)
    as ([doc vector] & Hpair & Hid & Hvec & _ & d & Hd & Hcontent).
  apply lookup_zip_with_Some in Hpair as (doc' & v' & [= <- <-] & Hdoc & Hv).
  exists doc, vector, d. simpl in *. repeat split; try assumption.
  unfold record_value, deref. rewrite Hid, Hvec, Hd. reflexivity.
Qed.

Lemma ingest_heap_extends (request : IngestRequest) st (res : outcome dict) st' :
  ingest cfg C request st = (res, st') -> exists objs, heap st' = heap st ++ objs.
Proof.
  intros Hrun. destruct (documents request) as [|d0 ds] eqn:Hdocs.
  - unfold ingest in Hrun. rewrite Hdocs in Hrun. injection Hrun as _ <-.
    exists []. rewrite app_nil_r. reflexivity.
  - destruct (ingest_run request st res st') as (new & objs & _ & Hh & _);
      [congruence | exact Hrun |].
    exists objs. exact Hh.
Qed.

Lemma snippet_of_long (text : string) :
  (200 < str_len text)%nat ->
  exists pre rest,
    text = pre +:+ rest /\ str_len pre = 200%nat /\ starts_char rest = true /\
    snippet_of text = pre +:+ "...".
Proof.
  intros Hlong. destruct (str_take_prefix 200 text) as (rest & Hrest & Hstart).
  exists (str_take 200 text), rest. split; [exact Hrest|]. split; [|split].
  - rewrite str_take_len. lia.
  - exact Hstart.
  - unfold snippet_of. apply Nat.ltb_lt in Hlong. rewrite Hlong. reflexivity.
Qed.

Lemma snippet_of_short (text : string) :
  (str_len text <= 200)%nat -> snippet_of text = text.
Proof.
  intros Hshort. unfold snippet_of.
  destruct (200 <? str_len text)%nat eqn:E; [|reflexivity].
  apply Nat.ltb_lt in E. lia.
Qed.

(** A successful run of [ingest] with a provider that returns one vector
    per text: one upsert call, whose batch is the records the loop built,
    one for each document. *)
Lemma ingest_success_records (request : IngestRequest) st (resp : dict) st' :
  one_vector_per_text C ->
  ingest cfg C request st = (Ok resp, st') ->
  exists new idx vectors recs,
    calls st' = calls st ++ new /\
    filter (is_upsert_call C) new =
      [CallUpsert C idx (map (record_value (heap st')) recs) (Ok tt)] /\
    Forall2 (built_from (heap st) (heap st')) (zip (documents request) vectors) recs /\
    length recs = length (documents request).
Proof.
  intros Hcontract Hrun.
  assert (Hne : documents request <> []).
  { intros Hempty. unfold ingest in Hrun. rewrite Hempty in Hrun. discriminate Hrun. }
  destruct (ingest_run request st (Ok resp) st' Hne Hrun)
    as (new & objs & Hc & Hh & [[_ [e He]] |
        (load & m & vectors & idx & recs & r & w & w' & Hnew & Hup & _ & Hbatch & Hbuilt & Hres)]);
    [discriminate He|].
  destruct r as [[]|e]; [|discriminate Hres].
  exists new, idx, vectors, recs. split; [exact Hc|]. split; [|split; [exact Hbuilt|]].
  - rewrite Hnew, filter_app, Hup. reflexivity.
  - rewrite <- (Forall2_length _ _ _ Hbuilt), length_zip_with.
    rewrite (Hcontract _ _ _ _ _ Hbatch), length_map. lia.
Qed.

(** The record a successful run holds at the position of a document. *)
Lemma built_record_at h h' (docs : list DocumentInput) (vectors : list (list float))
    (recs : list VectorRecord) (i : nat) (doc : DocumentInput) :
  Forall2 (built_from h h') (zip docs vectors) recs ->
  length recs = length docs ->
  docs !! i = Some doc ->
  exists vector d,
    vectors !! i = Some vector /\
    map (record_value h') recs !! i =
      Some (PyDict [("id", PyStr (doc_id doc));
                    ("vector", vector_value vector);
                    ("meta", PyDict (dict_setitem "snippet"
                                       (PyStr (snippet_of (doc_text doc))) d))]) /\
    ((forall a, doc_meta doc = Some a -> (a < length h)%nat) -> d = meta_content h doc).
Proof.
  intros Hbuilt Hlen Hdoc.
  destruct (lookup_lt_is_Some_2 recs i) as [r Hr].
  { rewrite Hlen. eapply lookup_lt_Some. exact Hdoc. }
  assert (Hrec : map (record_value h') recs !! i = Some (record_value h' r)).
  { change (map (record_value h') recs) with (record_value h' <$> recs).
    apply list_lookup_fmap_Some_2. exact Hr. }
  destruct (built_record_lookup _ _ _ _ _ _ _ Hbuilt Hrec)
    as (doc' & vector & d & Hdoc' & Hv & Heq & Hcontent).
  rewrite Hdoc in Hdoc'. injection Hdoc' as <-.
  exists vector, d. split; [exact Hv|]. split; [|exact Hcontent].
  rewrite Hrec, Heq. reflexivity.
Qed.

(** ** The claims about [ingest] *)

(** C1. For every document of a request that [ingest] answers, with a
    provider that returns one vector per text, the batch handed to the
    vector store holds at the document's position a record whose metadata
    has under ["snippet"] the first 200 characters of the document's text
    followed by ["..."] when the text has more than 200 characters, and
    the text itself when it has at most 200. And whatever way a run ends,
    a record of an upsert batch belongs to the document at its position
    and carries that snippet. Characters are code points. *)
Theorem ingest_stores_snippet (request : IngestRequest) st (res : outcome dict) st' :
  ingest cfg C request st = (res, st') ->
  (one_vector_per_text C ->
   forall resp, res = Ok resp ->
   exists new idx records,
     calls st' = calls st ++ new /\
     filter (is_upsert_call C) new = [CallUpsert C idx records (Ok tt)] /\
     length records = length (documents request) /\
     forall i doc,
       documents request !! i = Some doc ->
       exists vector meta s,
         records !! i = Some (PyDict [("id", PyStr (doc_id doc));
                                      ("vector", vector_value vector);
                                      ("meta", PyDict meta)]) /\
         dict_get "snippet" meta = Some (PyStr s) /\
         ((200 < str_len (doc_text doc))%nat ->
          exists pre rest,
            doc_text doc = pre +:+ rest /\ str_len pre = 200%nat /\
            starts_char rest = true /\ s = pre +:+ "...") /\
         ((str_len (doc_text doc) <= 200)%nat -> s = doc_text doc)) /\
  (forall (new : list (call C)) (idx : Index C) (records : list Any) (r : outcome unit)
          (i : nat) (rec : Any),
     calls st' = calls st ++ new ->
     In (CallUpsert C idx records r) new ->
     records !! i = Some rec ->
     exists doc vector meta s,
       documents request !! i = Some doc /\
       rec = PyDict [("id", PyStr (doc_id doc));
                     ("vector", vector_value vector);
                     ("meta", PyDict meta)] /\
       dict_get "snippet" meta = Some (PyStr s) /\
       ((200 < str_len (doc_text doc))%nat ->
        exists pre rest,
          doc_text doc = pre +:+ rest /\ str_len pre = 200%nat /\
          starts_char rest = true /\ s = pre +:+ "...") /\
       ((str_len (doc_text doc) <= 200)%nat -> s = doc_text doc)).
Proof.
  intros Hrun. split.
  - intros Hcontract resp ->.
    destruct (ingest_success_records _ _ _ _ Hcontract Hrun)
      as (new & idx & vectors & recs & Hc & Hup & Hbuilt & Hlen).
    exists new, idx, (map (record_value (heap st')) recs).
    split; [exact Hc|]. split; [exact Hup|]. split; [rewrite length_map; exact Hlen|].
    intros i doc Hdoc.
    destruct (built_record_at _ _ _ _ _ _ _ Hbuilt Hlen Hdoc) as (vector & d & _ & Hrec & _).
    exists vector, (dict_setitem "snippet" (PyStr (snippet_of (doc_text doc))) d),
      (snippet_of (doc_text doc)).
    split; [exact Hrec|]. split; [apply dict_get_setitem_eq|].
    split; [apply snippet_of_long | apply snippet_of_short].
  - intros new idx records r i rec Hcalls Hin Hrec.
    destruct (ingest_upsert_batch _ _ _ _ _ _ _ _ Hrun Hcalls Hin)
      as (m & vectors & recs & w & w' & _ & -> & Hbuilt & _).
    destruct (built_record_lookup _ _ _ _ _ _ _ Hbuilt Hrec)
      as (doc & vector & d & Hdoc & _ & -> & _).
    exists doc, vector, (dict_setitem "snippet" (PyStr (snippet_of (doc_text doc))) d),
      (snippet_of (doc_text doc)).
    split; [exact Hdoc|]. split; [reflexivity|]. split; [apply dict_get_setitem_eq|].
    split; [apply snippet_of_long | apply snippet_of_short].
Qed.

(** C2. On a request whose documents list is empty, [ingest] raises the
    HTTP 400 error and leaves the whole state as it was: nothing is added
    to the call log, so neither the embedding provider nor the vector
    store is called, and the collaborators' world is unchanged. *)
Theorem ingest_empty_rejected (request : IngestRequest) st :
  documents request = [] ->
  ingest cfg C request st = (Raise (HTTPException 400 "No documents provided"), st) /\
  calls (snd (ingest cfg C request st)) = calls st /\
  world (snd (ingest cfg C request st)) = world st /\
  heap (snd (ingest cfg C request st)) = heap st.
Proof.
  intros Hempty. unfold ingest. rewrite Hempty. unfold raise. simpl.
  repeat split.
Qed.

(** C5. With a provider that returns one vector per text, a non-empty
    ingest request that succeeds answers [{"status": "ok", "ingested": n}]
    with [n] the number of documents, and makes exactly one upsert call,
    whose batch has one record per document, in the order of the request,
    the i-th record carrying the i-th document's id and the i-th vector
    returned by the provider. *)
Theorem ingest_success_batch (request : IngestRequest) st (resp : dict) st' :
  one_vector_per_text C ->
  documents request <> [] ->
  ingest cfg C request st = (Ok resp, st') ->
  resp = [("status", PyStr "ok");
          ("ingested", PyInt (Z.of_nat (length (documents request))))] /\
  exists new idx records m vectors,
    calls st' = calls st ++ new /\
    filter (is_upsert_call C) new = [CallUpsert C idx records (Ok tt)] /\
    In (CallEncodeBatch C m (map doc_text (documents request)) (Ok vectors)) new /\
    length records = length (documents request) /\
    forall i doc,
      documents request !! i = Some doc ->
      exists vector meta,
        vectors !! i = Some vector /\
        records !! i = Some (PyDict [("id", PyStr (doc_id doc));
                                     ("vector", vector_value vector);
                                     ("meta", PyDict meta)]).
Proof.
  intros Hcontract Hne Hrun.
  destruct (ingest_run request st (Ok resp) st' Hne Hrun)
    as (new & objs & Hc & Hh & [[_ [e He]] |
        (load & m & vectors & idx & recs & r & w & w' & Hnew & Hup & _ & Hbatch & Hbuilt & Hres)]);
    [discriminate He|].
  destruct r as [[]|e]; [|discriminate Hres]. injection Hres as ->.
  split; [reflexivity|].
  exists new, idx, (map (record_value (heap st')) recs), m, vectors.
  assert (Hlen : length vectors = length (documents request)).
  { rewrite (Hcontract _ _ _ _ _ Hbatch). apply length_map. }
  assert (Hrecs : length recs = length (documents request)).
  { rewrite <- (Forall2_length _ _ _ Hbuilt), length_zip_with. lia. }
  split; [exact Hc|]. split; [|split; [|split]].
  - rewrite Hnew, filter_app, Hup. reflexivity.
  - rewrite Hnew. apply in_or_app. right. left. reflexivity.
  - rewrite length_map. exact Hrecs.
  - intros i doc Hdoc.
    destruct (lookup_lt_is_Some_2 recs i) as [r Hr].
    { rewrite Hrecs. eapply lookup_lt_Some. exact Hdoc. }
    assert (Hrec : map (record_value (heap st')) recs !! i = Some (record_value (heap st') r)).
    { change (map (record_value (heap st')) recs) with (record_value (heap st') <$> recs).
      apply list_lookup_fmap_Some_2. exact Hr. }
    destruct (built_record_lookup _ _ _ _ _ _ _ Hbuilt Hrec)
      as (doc' & vector & d & Hdoc' & Hv & Heq & _).
    rewrite Hdoc in Hdoc'. injection Hdoc' as <-.
    exists vector, (dict_setitem "snippet" (PyStr (snippet_of (doc_text doc))) d).
    split; [exact Hv|]. rewrite Hrec, Heq. reflexivity.
Qed.

(** C10. On a request whose [meta] references are allocated, a run of
    [ingest] leaves every dict object that existed before it exactly as it
    was, the documents' own [meta] mappings among them: what it changes is
    a copy. When the request is answered, with a provider that returns one
    vector per text, every document has its record in the batch handed to
    the vector store, and the record's metadata holds the derived snippet
    under ["snippet"], whatever the document's [meta] had there, and under
    every other key exactly what the document's [meta] has (nothing, when
    it has nothing). The same holds of every record of an upsert batch,
    whatever way the run ends. *)
Theorem ingest_meta_frame (request : IngestRequest) st (res : outcome dict) st' :
  allocated (heap st) request ->
  ingest cfg C request st = (res, st') ->
  (forall a d, heap st !! a = Some d -> heap st' !! a = Some d) /\
  (one_vector_per_text C ->
   forall resp, res = Ok resp ->
   exists new idx records,
     calls st' = calls st ++ new /\
     filter (is_upsert_call C) new = [CallUpsert C idx records (Ok tt)] /\
     forall i doc,
       documents request !! i = Some doc ->
       exists vector meta,
         records !! i = Some (PyDict [("id", PyStr (doc_id doc));
                                      ("vector", vector_value vector);
                                      ("meta", PyDict meta)]) /\
         dict_get "snippet" meta = Some (PyStr (snippet_of (doc_text doc))) /\
         forall k, k <> "snippet" ->
                   dict_get k meta = dict_get k (meta_content (heap st) doc)) /\
  forall (new : list (call C)) (idx : Index C) (records : list Any) (r : outcome unit)
         (i : nat) (rec : Any),
    calls st' = calls st ++ new ->
    In (CallUpsert C idx records r) new ->
    records !! i = Some rec ->
    exists doc vector meta,
      documents request !! i = Some doc /\
      rec = PyDict [("id", PyStr (doc_id doc));
                    ("vector", vector_value vector);
                    ("meta", PyDict meta)] /\
      dict_get "snippet" meta = Some (PyStr (snippet_of (doc_text doc))) /\
      forall k, k <> "snippet" -> dict_get k meta = dict_get k (meta_content (heap st) doc).
Proof.
  intros Halloc Hrun.
  assert (Hin_alloc : forall i doc, documents request !! i = Some doc ->
            forall a, doc_meta doc = Some a -> (a < length (heap st))%nat).
  { intros i doc Hdoc a Ha. apply (Halloc doc a); [|exact Ha].
    apply list_elem_of_In. eapply list_elem_of_lookup_2. exact Hdoc. }
  split; [|split].
  - destruct (ingest_heap_extends _ _ _ _ Hrun) as [objs ->].
    intros a d Ha. apply lookup_app_l_Some. exact Ha.
  - intros Hcontract resp ->.
    destruct (ingest_success_records _ _ _ _ Hcontract Hrun)
      as (new & idx & vectors & recs & Hc & Hup & Hbuilt & Hlen).
    exists new, idx, (map (record_value (heap st')) recs).
    split; [exact Hc|]. split; [exact Hup|].
    intros i doc Hdoc.
    destruct (built_record_at _ _ _ _ _ _ _ Hbuilt Hlen Hdoc)
      as (vector & d & _ & Hrec & Hcontent).
    exists vector, (dict_setitem "snippet" (PyStr (snippet_of (doc_text doc))) d).
    split; [exact Hrec|]. split; [apply dict_get_setitem_eq|].
    intros k Hk. rewrite dict_get_setitem_ne by exact Hk.
    rewrite Hcontent; [reflexivity | exact (Hin_alloc i doc Hdoc)].
  - intros new idx records r i rec Hcalls Hin Hrec.
    destruct (ingest_upsert_batch _ _ _ _ _ _ _ _ Hrun Hcalls Hin)
      as (m & vectors & recs & w & w' & _ & -> & Hbuilt & _).
    destruct (built_record_lookup _ _ _ _ _ _ _ Hbuilt Hrec)
      as (doc & vector & d & Hdoc & _ & -> & Hcontent).
    exists doc, vector, (dict_setitem "snippet" (PyStr (snippet_of (doc_text doc))) d).
    split; [exact Hdoc|]. split; [reflexivity|]. split; [apply dict_get_setitem_eq|].
    intros k Hk. rewrite dict_get_setitem_ne by exact Hk.
    rewrite Hcontent; [reflexivity | exact (Hin_alloc i doc Hdoc)].
Qed.

(** ** The claims about [query] and the startup guard *)

(** C4. A [POST /query] body whose [top_k] is below 1 or above 50 is
    rejected by validation with the state untouched, so no embedding call
    and no vector-store call is made; a body without [top_k] is handled as
    the query with [top_k = 5]. *)
Theorem post_query_top_k_validated :
  (forall (body : QueryBody) st (k : Z),
     body_top_k body = Some k ->
     k < 1 \/ 50 < k ->
     exists field msg,
       post_query cfg C body st = (Raise (RequestValidationError field msg), st)) /\
  (forall (q : string) (f : option dict) st,
     validate_QueryRequest
       {| body_query_text := Some q; body_top_k := None; body_filters := f |} =
       Ok {| query_text := q; top_k := 5; filters := f |} /\
     post_query cfg C
       {| body_query_text := Some q; body_top_k := None; body_filters := f |} st =
       query cfg C {| query_text := q; top_k := 5; filters := f |} st).
Proof.
  split.
  - intros body st k Hk Hrange. unfold post_query, validate_QueryRequest. rewrite Hk.
    destruct (body_query_text body) as [q|]; [|eexists _, _; reflexivity].
    destruct (1 <=? k) eqn:E1; simpl; [|eexists _, _; reflexivity].
    destruct (k <=? 50) eqn:E2; simpl; [|eexists _, _; reflexivity].
    apply Z.leb_le in E1, E2. lia.
  - intros q f st. split; reflexivity.
Qed.

(** Whatever way a query ends, it makes at most one encode call. *)
Lemma query_encodes_at_most_once (request : QueryRequest) st (res : outcome dict) st' :
  query cfg C request st = (res, st') ->
  exists new,
    calls st' = calls st ++ new /\
    (length (filter (is_encode_call C) new) <= 1)%nat.
Proof.
  unfold query, embed_text. intros Hrun.
  apply bind_inv in Hrun as [(e & Hembed & _) | (v & st1 & Hembed & Hrun)].
  - (* the embedding raised *)
    apply bind_inv in Hembed as [(e' & Hmodel & _) | (m & st0 & Hmodel & Hencode)];
      apply _get_model_spec in Hmodel as (load & Hc0 & _ & Henc & _).
    + exists load. rewrite Henc. split; [exact Hc0 | simpl; lia].
    + apply external_spec in Hencode as (Hc1 & _ & _).
      eexists. rewrite Hc1, Hc0, <- app_assoc. split; [reflexivity|].
      rewrite filter_app, Henc. simpl. lia.
  - apply bind_inv in Hembed as [(e' & _ & [=]) | (m & st0 & Hmodel & Hencode)].
    apply _get_model_spec in Hmodel as (load & Hc0 & _ & Henc & _).
    apply external_spec in Hencode as (Hc1 & _ & _).
    assert (Hsim : exists (r : outcome (list dict)) st2,
               query_similar cfg C v (top_k request) (filters request) st1 = (r, st2) /\
               st' = st2).
    { apply bind_inv in Hrun as [(e & Hsim & _) | (results & st2 & Hsim & [= _ <-])];
        eauto. }
    destruct Hsim as (r & st2 & Hsim & ->). unfold query_similar in Hsim.
    apply bind_inv in Hsim as [(e' & Hget & _) | (idx & st3 & Hget & Hq)];
      apply external_spec in Hget as (Hc2 & _ & _).
    + eexists. rewrite Hc2, Hc1, Hc0, <- !app_assoc. split; [reflexivity|].
      rewrite filter_app, Henc. simpl. lia.
    + apply external_spec in Hq as (Hc3 & _ & _).
      eexists. rewrite Hc3, Hc2, Hc1, Hc0, <- !app_assoc. split; [reflexivity|].
      rewrite filter_app, Henc. simpl. lia.
Qed.


(** C6. A query that returns answers [{"results": rs}] where [rs] is the
    sequence the vector store's search returned, as it is; in that run the
    text is embedded by exactly one encode call, followed by the fetch of
    the index and one search call on the embedded vector, the bound and
    the normalized filter. *)
Theorem query_returns_store_results (request : QueryRequest) st (resp : dict) st' :
  query cfg C request st = (Ok resp, st') ->
  exists new load m v idx results w w',
    calls st' = calls st ++ new /\
    new = load ++
          [CallEncode C m (query_text request) (Ok v);
           CallGetIndex C (_get_client cfg) (INDEX_NAME cfg) (Ok idx);
           CallQuery C idx (query_kwargs v (top_k request) (filters request)) (Ok results)] /\
    filter (is_encode_call C) new = [CallEncode C m (query_text request) (Ok v)] /\
    index_query C idx (query_kwargs v (top_k request) (filters request)) w = (Ok results, w') /\
    resp = [("results", PyList (map PyDict results))].
Proof.
  unfold query. intros Hrun.
  apply bind_inv in Hrun as [(e & _ & [=]) | (v & st1 & Hembed & Hrun)].
  apply bind_inv in Hrun as [(e & _ & [=]) | (results & st2 & Hsim & [= <- <-])].
  unfold embed_text in Hembed.
  apply bind_inv in Hembed as [(e & _ & [=]) | (m & st0 & Hmodel & Hencode)].
  apply _get_model_spec in Hmodel as (load & Hc0 & _ & Henc & _).
  apply external_spec in Hencode as (Hc1 & _ & _).
  unfold query_similar in Hsim.
  apply bind_inv in Hsim as [(e & _ & [=]) | (idx & st3 & Hget & Hq)].
  apply external_spec in Hget as (Hc2 & _ & _).
  apply external_spec in Hq as (Hc3 & _ & w' & Hq).
  eexists _, load, m, v, idx, results, (world st3), w'.
  split; [|split; [reflexivity|]].
  - rewrite Hc3, Hc2, Hc1, Hc0, <- !app_assoc. reflexivity.
  - split; [|split; [exact Hq | reflexivity]].
    rewrite filter_app, Henc. reflexivity.
Qed.

(** C9. A filters mapping that is present but empty is handled as no
    filter: the arguments of the search call are the vector and the bound
    alone, with no ["filter"] entry, and the whole query runs as the query
    without filters does. *)
Theorem empty_filters_as_absent (q : string) (k : Z) (v : list float) st :
  query_kwargs v k (Some []) = [("vector", vector_value v); ("top_k", PyInt k)] /\
  dict_get "filter" (query_kwargs v k (Some [])) = None /\
  query_similar cfg C v k (Some []) st = query_similar cfg C v k None st /\
  query cfg C {| query_text := q; top_k := k; filters := Some [] |} st =
    query cfg C {| query_text := q; top_k := k; filters := None |} st.
Proof. repeat split; reflexivity. Qed.

(** C7. The startup guard fetches the index by its configured name. When
    the fetch raises, whatever the exception, it calls index creation with
    the configured name, dimension and space type and the INT8 precision,
    and ends as that call ends; when the fetch succeeds it returns with no
    creation call. *)
Theorem ensure_index_exists_guard st (r : outcome (Index C)) (w : World C) :
  get_index C (_get_client cfg) (INDEX_NAME cfg) (world st) = (r, w) ->
  match r with
  | Ok idx =>
      ensure_index_exists cfg C st =
        (Ok tt,
         {| _model := _model st; heap := heap st; world := w;
            calls := calls st ++
                     [CallGetIndex C (_get_client cfg) (INDEX_NAME cfg) (Ok idx)] |})
  | Raise e =>
      exists (r' : outcome unit) (w' : World C),
        create_index C (_get_client cfg) (INDEX_NAME cfg) (EMBEDDING_DIM cfg)
          (SPACE_TYPE cfg) (INT8 C) w = (r', w') /\
        ensure_index_exists cfg C st =
          (r',
           {| _model := _model st; heap := heap st; world := w';
              calls := calls st ++
                       [CallGetIndex C (_get_client cfg) (INDEX_NAME cfg) (Raise e);
                        CallCreateIndex C (_get_client cfg) (INDEX_NAME cfg)
                          (EMBEDDING_DIM cfg) (SPACE_TYPE cfg) (INT8 C) r'] |})
  end.
Proof.
  intros Hget.
  unfold ensure_index_exists, try_except, bind, client_get_index, external, ret.
  rewrite Hget. destruct r as [idx|e]; simpl.
  - reflexivity.
  - destruct (create_index C (_get_client cfg) (INDEX_NAME cfg) (EMBEDDING_DIM cfg)
                (SPACE_TYPE cfg) (INT8 C) w) as [r' w'].
    exists r', w'. split; [reflexivity|]. rewrite <- app_assoc. reflexivity.
Qed.

End OrchestrationFacts.

(** ** The bulk loader *)

Section BulkLoaderFacts.

Import IngestDocs.

Implicit Types (env : Environment) (resp : Response) (e : PyExc).

Lemma load_documents_quiet env :
  fst (load_documents env) <> [] -> snd (load_documents env) = [].
Proof.
  unfold load_documents. destruct (docs_dir env); simpl; [reflexivity | congruence].
Qed.

Lemma raise_for_status_error env resp :
  http_error resp ->
  exists msg,
    raise_for_status env resp =
      Some {| exc_cls := HTTPError; exc_str := msg; exc_response_text := Some (text resp) |}.
Proof.
  unfold http_error, raise_for_status. intros [Hlo Hhi].
  apply Z.leb_le in Hlo. apply Z.ltb_lt in Hhi. rewrite Hlo, Hhi. simpl.
  eexists. reflexivity.
Qed.

Lemma raise_for_status_ok env resp :
  ~ http_error resp -> raise_for_status env resp = None.
Proof.
  unfold http_error, raise_for_status. intros Hok.
  destruct (400 <=? status_code resp) eqn:Hlo; [|reflexivity].
  destruct (status_code resp <? 600) eqn:Hhi; [|reflexivity].
  apply Z.leb_le in Hlo. apply Z.ltb_lt in Hhi. lia.
Qed.

(** [main] when documents were found, in terms of what the [try] block did. *)
Lemma main_with_documents env :
  fst (load_documents env) <> [] ->
  main env =
    let call := (API_BASE +:+ "/ingest", payload_of (fst (load_documents env)), 60) in
    match try_body env (fst (load_documents env)) (the_post env) with
    | (inr status, out) => {| ended := Returns status; stdout := out; posts := [call] |}
    | (inl e, out) =>
        if isinstance_ConnectionError (exc_cls e) then
          {| ended := Returns 1; stdout := out ++ [CONNECT_MESSAGE]; posts := [call] |}
        else if isinstance_RequestException (exc_cls e) then
          {| ended := Returns 1;
             stdout := out ++ ["Error: " +:+ exc_str e]
                           ++ match exc_response_text e with
                              | Some t => [t]
                              | None => []
                              end;
             posts := [call] |}
        else {| ended := Uncaught e; stdout := out; posts := [call] |}
    end.
Proof.
  intros Hdocs. pose proof (load_documents_quiet env Hdocs) as Hquiet.
  unfold main, the_post.
  destruct (load_documents env) as [docs printed]. simpl in *. subst printed.
  destruct docs as [|d ds]; [congruence|].
  destruct (try_body env (d :: ds) _) as [[e|status] out]; reflexivity.
Qed.

Lemma exit_status_no_documents env :
  no_documents env -> exit_status env = 1 /\ posts (main env) = [].
Proof.
  unfold no_documents, exit_status, main.
  destruct (load_documents env) as [docs printed]. simpl. intros ->. split; reflexivity.
Qed.

Lemma exit_status_post_raises env e :
  ~ no_documents env -> the_post env = PostRaises e -> exit_status env = 1.
Proof.
  unfold no_documents, exit_status. intros Hdocs Hpost.
  rewrite (main_with_documents env Hdocs), Hpost. simpl.
  destruct (isinstance_ConnectionError (exc_cls e)); [reflexivity|].
  destruct (isinstance_RequestException (exc_cls e)); reflexivity.
Qed.

Lemma main_http_error env resp :
  ~ no_documents env -> the_post env = PostReturns resp -> http_error resp ->
  exists msg,
    ended (main env) = Returns 1 /\ stdout (main env) = ["Error: " +:+ msg; text resp].
Proof.
  unfold no_documents. intros Hdocs Hpost Herr.
  destruct (raise_for_status_error env resp Herr) as [msg Hraise].
  exists msg. rewrite (main_with_documents env Hdocs), Hpost. simpl.
  rewrite Hraise. simpl. split; reflexivity.
Qed.

Lemma main_connection_failure env :
  connection_failure env ->
  ended (main env) = Returns 1 /\ stdout (main env) = [CONNECT_MESSAGE].
Proof.
  intros (Hdocs & e & Hpost & Hcls). unfold no_documents in Hdocs.
  rewrite (main_with_documents env Hdocs), Hpost. simpl. rewrite Hcls. simpl.
  split; reflexivity.
Qed.

Lemma exit_status_succeeded env : request_succeeded env -> exit_status env = 0.
Proof.
  intros (Hdocs & resp & data & Hpost & Hok & Hjson).
  unfold no_documents in Hdocs. unfold exit_status.
  rewrite (main_with_documents env Hdocs), Hpost. simpl.
  rewrite (raise_for_status_ok env resp Hok), Hjson. reflexivity.
Qed.

Lemma exit_status_zero_inv env : exit_status env = 0 -> request_succeeded env.
Proof.
  intros Hexit.
  assert (Hdocs : ~ no_documents env).
  { intros Hnone. apply exit_status_no_documents in Hnone as [H1 _].
    rewrite H1 in Hexit. discriminate. }
  split; [exact Hdocs|].
  destruct (the_post env) as [resp|e] eqn:Hpost.
  2: { rewrite (exit_status_post_raises env e Hdocs Hpost) in Hexit. discriminate. }
  exists resp.
  unfold exit_status in Hexit. unfold no_documents in Hdocs.
  rewrite (main_with_documents env Hdocs), Hpost in Hexit. simpl in Hexit.
  unfold raise_for_status in Hexit. unfold http_error.
  destruct ((400 <=? status_code resp) && (status_code resp <? 600)) eqn:Hst;
    [simpl in Hexit; discriminate|].
  destruct (json resp) as [data|e] eqn:Hjson.
  - destruct data as [| | | | | |data];
      try (simpl in Hexit; discriminate).
    exists data. split; [reflexivity|]. split; [|reflexivity].
    intros [Hlo Hhi]. apply Z.leb_le in Hlo. apply Z.ltb_lt in Hhi.
    rewrite Hlo, Hhi in Hst. discriminate.
  - exfalso. destruct (isinstance_ConnectionError (exc_cls e));
      [simpl in Hexit; discriminate|].
    destruct (isinstance_RequestException (exc_cls e)); simpl in Hexit; discriminate.
Qed.

(** A failure of the post that is a [RequestException] but not a
    [ConnectionError] prints the exception's own text after ["Error: "],
    so it reads as the connection message only if that text is the
    sentence of the connection message itself. *)
Lemma main_request_exception env e :
  ~ no_documents env -> the_post env = PostRaises e ->
  isinstance_ConnectionError (exc_cls e) = false ->
  isinstance_RequestException (exc_cls e) = true ->
  stdout (main env) =
    ["Error: " +:+ exc_str e] ++ match exc_response_text e with
                                 | Some t => [t]
                                 | None => []
                                 end /\
  (stdout (main env) = [CONNECT_MESSAGE] ->
   exc_str e = "Could not connect to the API. Is the backend running on port 8000?").
Proof.
  unfold no_documents. intros Hdocs Hpost Hconn Hreq.
  rewrite (main_with_documents env Hdocs), Hpost. simpl. rewrite Hconn, Hreq. simpl.
  split; [reflexivity|].
  unfold CONNECT_MESSAGE. intros H. injection H as H _. exact H.
Qed.


(** C8. The loader exits with a non-zero status when no documents were
    found and when the ingest request failed (the post raised, or the
    response carries an error status); it exits with status zero exactly
    when documents were found and the request succeeded; what it prints on
    a connection failure differs from what it prints on an HTTP error
    response; and a run makes at most one post, none when no documents
    were found. *)
Theorem loader_exit_and_messages env env' :
  (no_documents env \/ request_failed env -> exit_status env <> 0) /\
  (request_succeeded env -> exit_status env = 0) /\
  (exit_status env = 0 -> request_succeeded env) /\
  (connection_failure env -> http_failure env' ->
   stdout (main env) <> stdout (main env')) /\
  (length (posts (main env)) <= 1)%nat /\
  (no_documents env -> posts (main env) = []).
Proof.
  split; [|split; [|split; [|split; [|split]]]].
  - intros Hbad Hexit. apply exit_status_zero_inv in Hexit
      as (Hdocs & resp & data & Hpost & Hok & _).
    destruct Hbad as [Hnone | [[e He] | (resp' & Hpost' & Herr)]].
    + exact (Hdocs Hnone).
    + rewrite Hpost in He. discriminate.
    + rewrite Hpost in Hpost'. injection Hpost' as <-. exact (Hok Herr).
  - apply exit_status_succeeded.
  - apply exit_status_zero_inv.
  - intros Hconn (Hdocs' & resp & Hpost & Herr).
    destruct (main_connection_failure env Hconn) as [_ ->].
    destruct (main_http_error env' resp Hdocs' Hpost Herr) as (msg & _ & ->).
    discriminate.
  - unfold main. destruct (load_documents env) as [[|d ds] printed]; simpl; [lia|].
    destruct (try_body env (d :: ds) _) as [[e|status] out]; simpl; [|lia].
    destruct (isinstance_ConnectionError (exc_cls e)); simpl; [lia|].
    destruct (isinstance_RequestException (exc_cls e)); simpl; lia.
  - intros Hnone. apply exit_status_no_documents. exact Hnone.
Qed.

End BulkLoaderFacts.

(** ** The model at work on concrete inputs *)

Example snippet_of_250 :
  snippet_of (string_of_list_ascii (repeat "a"%char 250)) =
    string_of_list_ascii (repeat "a"%char 200) +:+ "...".
Proof. vm_compute. reflexivity. Qed.

Example snippet_of_200 :
  snippet_of (string_of_list_ascii (repeat "a"%char 200)) =
    string_of_list_ascii (repeat "a"%char 200).
Proof. vm_compute. reflexivity. Qed.

Example snippet_of_70_euro :
  String.length (String.concat "" (repeat "€" 70)) = 210%nat /\
  str_len (String.concat "" (repeat "€" 70)) = 70%nat /\
  snippet_of (String.concat "" (repeat "€" 70)) = String.concat "" (repeat "€" 70).
Proof. vm_compute. repeat split. Qed.

Example snippet_of_201_euro :
  snippet_of (String.concat "" (repeat "€" 201)) =
    String.concat "" (repeat "€" 200) +:+ "...".
Proof. vm_compute. reflexivity. Qed.

Example str_take_whole_characters :
  str_take 2 "a€b" = "a€" /\ str_len "a€b" = 3%nat /\ str_take 0 "€" = "".
Proof. vm_compute. repeat split. Qed.

Example dict_setitem_keeps_position :
  dict_setitem "snippet" (PyStr "new")
    [("snippet", PyStr "supplied"); ("source", PyStr "a.md")] =
    [("snippet", PyStr "new"); ("source", PyStr "a.md")].
Proof. reflexivity. Qed.

Example validate_top_k_51 :
  validate_QueryRequest
    {| body_query_text := Some "q"; body_top_k := Some 51; body_filters := None |} =
    Raise (RequestValidationError "top_k" "Input should be less than or equal to 50").
Proof. reflexivity. Qed.

Example validate_top_k_50 :
  validate_QueryRequest
    {| body_query_text := Some "q"; body_top_k := Some 50; body_filters := None |} =
    Ok {| query_text := "q"; top_k := 50; filters := None |}.
Proof. reflexivity. Qed.

Example ingest_demo_response :
  fst (ingest default_config stub demo_ingest demo_state) =
    Ok [("status", PyStr "ok"); ("ingested", PyInt 2)].
Proof. vm_compute. reflexivity. Qed.

Example ingest_demo_keeps_caller_meta :
  heap (snd (ingest default_config stub demo_ingest demo_state)) !! 0%nat =
    Some [("source", PyStr "a.md"); ("snippet", PyStr "supplied")].
Proof. vm_compute. reflexivity. Qed.

Example startup_creates_missing_index :
  world (snd (lifespan_startup default_config stub fresh_state)) = Some [].
Proof. vm_compute. reflexivity. Qed.

Example loader_paths :
  (IngestDocs.path_suffix "a.tar.gz", IngestDocs.path_stem "a.tar.gz",
   IngestDocs.path_suffix ".bashrc", IngestDocs.wanted_suffix "b-file.TXT") =
  (".gz", "a.tar", "", true).
Proof. vm_compute. reflexivity. Qed.

Example loader_finds_two_documents :
  map IngestDocs.id (fst (IngestDocs.load_documents LoaderDemo.env_ok)) = ["a_file"; "b-file"].
Proof. vm_compute. reflexivity. Qed.

Example loader_http_error_output :
  IngestDocs.stdout (IngestDocs.main LoaderDemo.env_http_error) =
    ["Error: 500 Server Error: Internal Server Error for url: http://localhost:8000/ingest";
     "Internal Server Error"].
Proof. vm_compute. reflexivity. Qed.

(** ** The theorems applied to concrete runs *)

Lemma stub_one_vector_per_text : one_vector_per_text stub.
Proof.
  intros m texts w vs w' H. simpl in H. injection H as <- _. apply length_map.
Qed.

Lemma demo_ingest_run_ok :
  ingest default_config stub demo_ingest demo_state =
    (Ok [("status", PyStr "ok"); ("ingested", PyInt 2)], snd demo_ingest_run).
Proof. vm_compute. reflexivity. Qed.

Lemma ingest_stores_snippet_witness :
  exists new idx records,
    calls (snd demo_ingest_run) = calls demo_state ++ new /\
    filter (is_upsert_call stub) new = [CallUpsert stub idx records (Ok tt)] /\
    length records = length (documents demo_ingest) /\
    forall i doc,
      documents demo_ingest !! i = Some doc ->
      exists vector meta s,
        records !! i = Some (PyDict [("id", PyStr (doc_id doc));
                                     ("vector", vector_value vector);
                                     ("meta", PyDict meta)]) /\
        dict_get "snippet" meta = Some (PyStr s) /\
        ((200 < str_len (doc_text doc))%nat ->
         exists pre rest,
           doc_text doc = pre +:+ rest /\ str_len pre = 200%nat /\
           starts_char rest = true /\ s = pre +:+ "...") /\
        ((str_len (doc_text doc) <= 200)%nat -> s = doc_text doc).
Proof.
  exact (proj1 (ingest_stores_snippet default_config stub demo_ingest demo_state _ _
                  demo_ingest_run_ok)
           stub_one_vector_per_text _ eq_refl).
Defined.

Lemma ingest_empty_rejected_witness :
  ingest default_config stub {| documents := [] |} demo_state =
    (Raise (HTTPException 400 "No documents provided"), demo_state) /\
  calls (snd (ingest default_config stub {| documents := [] |} demo_state)) =
    calls demo_state /\
  world (snd (ingest default_config stub {| documents := [] |} demo_state)) =
    world demo_state /\
  heap (snd (ingest default_config stub {| documents := [] |} demo_state)) =
    heap demo_state.
Proof.
  apply (ingest_empty_rejected default_config stub {| documents := [] |} demo_state).
  reflexivity.
Defined.

Lemma normalize_filter_equality_clauses_witness :
  _normalize_filter [("source", PyStr "a.md")] !! 0%nat =
    Some (PyDict [("source", PyDict [("$eq", PyStr "a.md")])]).
Proof.
  assert (Hwf : dict_wf [("source", PyStr "a.md")]) by apply NoDup_singleton.
  apply (proj1 (proj2 (normalize_filter_equality_clauses _ Hwf))).
  reflexivity.
Defined.

Lemma post_query_top_k_validated_witness :
  exists field msg,
    post_query default_config stub
      {| body_query_text := Some "hello"; body_top_k := Some 51; body_filters := None |}
      demo_state = (Raise (RequestValidationError field msg), demo_state).
Proof.
  apply (proj1 (post_query_top_k_validated default_config stub) _ demo_state 51).
  - reflexivity.
  - right. lia.
Defined.

Lemma ingest_success_batch_witness :
  exists new idx records m vectors,
    calls (snd demo_ingest_run) = calls demo_state ++ new /\
    filter (is_upsert_call stub) new = [CallUpsert stub idx records (Ok tt)] /\
    In (CallEncodeBatch stub m (map doc_text (documents demo_ingest)) (Ok vectors)) new /\
    length records = length (documents demo_ingest) /\
    forall i doc,
      documents demo_ingest !! i = Some doc ->
      exists vector meta,
        vectors !! i = Some vector /\
        records !! i = Some (PyDict [("id", PyStr (doc_id doc));
                                     ("vector", vector_value vector);
                                     ("meta", PyDict meta)]).
Proof.
  refine (proj2 (ingest_success_batch default_config stub demo_ingest demo_state
                   _ (snd demo_ingest_run) stub_one_vector_per_text _ demo_ingest_run_ok)).
  discriminate.
Defined.

Lemma demo_query_run_ok :
  query default_config stub demo_query demo_state =
    (Ok [("results", PyList (map PyDict stub_results))], snd demo_query_run).
Proof. vm_compute. reflexivity. Qed.

Lemma query_returns_store_results_witness :
  exists new load m v idx results w w',
    calls (snd demo_query_run) = calls demo_state ++ new /\
    new = load ++
          [CallEncode stub m (query_text demo_query) (Ok v);
           CallGetIndex stub (_get_client default_config) (INDEX_NAME default_config) (Ok idx);
           CallQuery stub idx
             (query_kwargs v (top_k demo_query) (filters demo_query)) (Ok results)] /\
    filter (is_encode_call stub) new = [CallEncode stub m (query_text demo_query) (Ok v)] /\
    index_query stub idx (query_kwargs v (top_k demo_query) (filters demo_query)) w =
      (Ok results, w') /\
    [("results", PyList (map PyDict stub_results))] =
      [("results", PyList (map PyDict results))].
Proof.
  exact (query_returns_store_results default_config stub demo_query demo_state
           _ _ demo_query_run_ok).
Defined.

Lemma ensure_index_exists_guard_witness :
  exists (r' : outcome unit) (w' : World stub),
    create_index stub (_get_client default_config) (INDEX_NAME default_config)
      (EMBEDDING_DIM default_config) (SPACE_TYPE default_config) (INT8 stub)
      (world fresh_state) = (r', w') /\
    ensure_index_exists default_config stub fresh_state =
      (r',
       {| _model := _model fresh_state; heap := heap fresh_state; world := w';
          calls := calls fresh_state ++
                   [CallGetIndex stub (_get_client default_config)
                      (INDEX_NAME default_config)
                      (Raise (CollaboratorError "index not found"));
                    CallCreateIndex stub (_get_client default_config)
                      (INDEX_NAME default_config) (EMBEDDING_DIM default_config)
                      (SPACE_TYPE default_config) (INT8 stub) r'] |}).
Proof.
  exact (ensure_index_exists_guard default_config stub fresh_state
           (Raise (CollaboratorError "index not found")) (world fresh_state) eq_refl).
Defined.

Lemma demo_ingest_allocated : allocated (heap demo_state) demo_ingest.
Proof.
  intros doc a [<- | [<- | []]]; simpl; intros [= <-]. lia.
Qed.

Lemma ingest_meta_frame_witness :
  heap (snd demo_ingest_run) !! 0%nat =
    Some [("source", PyStr "a.md"); ("snippet", PyStr "supplied")] /\
  exists new idx records,
    calls (snd demo_ingest_run) = calls demo_state ++ new /\
    filter (is_upsert_call stub) new = [CallUpsert stub idx records (Ok tt)] /\
    forall i doc,
      documents demo_ingest !! i = Some doc ->
      exists vector meta,
        records !! i = Some (PyDict [("id", PyStr (doc_id doc));
                                     ("vector", vector_value vector);
                                     ("meta", PyDict meta)]) /\
        dict_get "snippet" meta = Some (PyStr (snippet_of (doc_text doc))) /\
        forall k, k <> "snippet" ->
                  dict_get k meta = dict_get k (meta_content (heap demo_state) doc).
Proof.
  destruct (ingest_meta_frame default_config stub demo_ingest demo_state _ _
              demo_ingest_allocated demo_ingest_run_ok) as (Hframe & Hrecords & _).
  split.
  - apply Hframe. reflexivity.
  - exact (Hrecords stub_one_vector_per_text _ eq_refl).
Defined.

Lemma loader_exit_and_messages_witness :
  IngestDocs.exit_status LoaderDemo.env_no_dir <> 0 /\
  IngestDocs.exit_status LoaderDemo.env_http_error <> 0 /\
  IngestDocs.exit_status LoaderDemo.env_ok = 0 /\
  IngestDocs.stdout (IngestDocs.main LoaderDemo.env_down) <>
    IngestDocs.stdout (IngestDocs.main LoaderDemo.env_http_error).
Proof.
  assert (Hdocs : forall answer,
            ~ IngestDocs.no_documents (LoaderDemo.env_with (Some LoaderDemo.one_file) answer))
    by (intros answer; vm_compute; discriminate).
  assert (Herr : IngestDocs.http_error LoaderDemo.error_response)
    by (unfold IngestDocs.http_error; simpl; lia).
  split; [|split; [|split]].
  - apply (proj1 (loader_exit_and_messages LoaderDemo.env_no_dir LoaderDemo.env_no_dir)).
    left. reflexivity.
  - apply (proj1 (loader_exit_and_messages LoaderDemo.env_http_error LoaderDemo.env_no_dir)).
    right. right. exists LoaderDemo.error_response. split; [reflexivity | exact Herr].
  - apply (proj1 (proj2 (loader_exit_and_messages LoaderDemo.env_ok LoaderDemo.env_no_dir))).
    split; [apply Hdocs|].
    eexists LoaderDemo.ok_response, _. split; [reflexivity|]. split; [|reflexivity].
    unfold IngestDocs.http_error. simpl. lia.
  - apply (proj1 (proj2 (proj2 (proj2
             (loader_exit_and_messages LoaderDemo.env_down LoaderDemo.env_http_error))))).
    + split; [apply Hdocs|]. exists LoaderDemo.connection_refused. split; reflexivity.
    + split; [apply Hdocs|]. exists LoaderDemo.error_response.
      split; [reflexivity | exact Herr].
Defined.

(** * Further properties of the orchestration layer *)

Section OrchestrationMore.

Variable cfg : Config.
Variable C : Collaborators.

Implicit Types (st : State C) (h objs : list dict) (a : addr).

Lemma external_keeps_model {A} (f : World C -> outcome A * World C)
    (entry : outcome A -> call C) st (r : outcome A) st' :
  external C f entry st = (r, st') -> _model st' = _model st.
Proof.
  unfold external. destruct (f (world st)) as [r0 w]. intros [= <- <-]. reflexivity.
Qed.

(** The lazy singleton of embeddings.py: a model that was loaded is kept
    in [_model] and handed out again without another constructor call; a
    constructor that raises leaves [_model] unset, so that the next call
    constructs again. *)
Theorem _get_model_cached st (r : outcome (Model C)) st' :
  _get_model cfg C st = (r, st') ->
  match r with
  | Ok m => _model st' = Some m /\ _get_model cfg C st' = (Ok m, st')
  | Raise e =>
      _model st = None /\ _model st' = None /\
      calls st' = calls st ++
                  [CallSentenceTransformer C (EMBEDDING_MODEL cfg) (Raise e)]
  end.
Proof.
  unfold _get_model, bind, get_global_model, external, set_global_model, ret.
  destruct (_model st) as [m|] eqn:Hm.
  - intros [= <- <-]. rewrite Hm. split; reflexivity.
  - destruct (SentenceTransformer C (EMBEDDING_MODEL cfg) (world st)) as [[m|e] w];
      intros [= <- <-]; simpl; repeat split; assumption.
Qed.

(** With the model loaded, embedding a text is one encode call. *)
Lemma embed_text_loaded (text : string) st (m : Model C) (r : outcome (list float)) st' :
  _model st = Some m ->
  embed_text cfg C text st = (r, st') ->
  calls st' = calls st ++ [CallEncode C m text r] /\ _model st' = Some m /\
  heap st' = heap st.
Proof.
  intros Hm. unfold embed_text, _get_model, bind, get_global_model, ret. rewrite Hm.
  intros Hrun. pose proof (external_keeps_model _ _ _ _ _ Hrun) as Hkeep.
  apply external_spec in Hrun as (Hc & Hh & _).
  rewrite Hkeep. repeat split; assumption.
Qed.

Lemma embed_text_loads (text : string) st (v : list float) st' :
  embed_text cfg C text st = (Ok v, st') -> exists m, _model st' = Some m.
Proof.
  unfold embed_text. intros Hrun.
  apply bind_inv in Hrun as [(e & _ & [=]) | (m & st0 & Hmodel & Hencode)].
  apply _get_model_cached in Hmodel as [Hm _].
  exists m. rewrite (external_keeps_model _ _ _ _ _ Hencode). exact Hm.
Qed.

Lemma ensure_index_exists_keeps_model st (r : outcome unit) st' :
  ensure_index_exists cfg C st = (r, st') ->
  _model st' = _model st /\ heap st' = heap st.
Proof.
  unfold ensure_index_exists, try_except, bind, client_get_index, external, ret.
  destruct (get_index C (_get_client cfg) (INDEX_NAME cfg) (world st)) as [[idx|e] w]; simpl.
  - intros [= <- <-]. split; reflexivity.
  - destruct (create_index C _ _ _ _ _ w) as [r' w']. intros [= <- <-]. split; reflexivity.
Qed.

(** After a startup that succeeded, a query that returns makes exactly
    three calls: one encode of the query text, the fetch of the index and
    the search. The model is not constructed again. *)
Theorem query_after_startup (request : QueryRequest) st st1 (resp : dict) st2 :
  lifespan_startup cfg C st = (Ok tt, st1) ->
  query cfg C request st1 = (Ok resp, st2) ->
  exists m v idx results,
    calls st2 = calls st1 ++
      [CallEncode C m (query_text request) (Ok v);
       CallGetIndex C (_get_client cfg) (INDEX_NAME cfg) (Ok idx);
       CallQuery C idx (query_kwargs v (top_k request) (filters request)) (Ok results)] /\
    resp = [("results", PyList (map PyDict results))].
Proof.
  unfold lifespan_startup. intros Hstart Hquery.
  apply bind_inv in Hstart as [(e & _ & [=]) | (v0 & st0 & Hwarm & Hguard)].
  destruct (embed_text_loads _ _ _ _ Hwarm) as [m Hm0].
  apply ensure_index_exists_keeps_model in Hguard as [Hkeep _].
  rewrite Hm0 in Hkeep.
  unfold query in Hquery.
  apply bind_inv in Hquery as [(e & _ & [=]) | (v & st3 & Hembed & Hquery)].
  apply (embed_text_loaded _ _ m) in Hembed as (Hc1 & _ & _); [|exact Hkeep].
  apply bind_inv in Hquery as [(e & _ & [=]) | (results & st4 & Hsim & [= <- <-])].
  unfold query_similar in Hsim.
  apply bind_inv in Hsim as [(e & _ & [=]) | (idx & st5 & Hget & Hq)].
  apply external_spec in Hget as (Hc2 & _ & _).
  apply external_spec in Hq as (Hc3 & _ & _).
  exists m, v, idx, results. split; [|reflexivity].
  rewrite Hc3, Hc2, Hc1, <- !app_assoc. reflexivity.
Qed.

Lemma _get_model_calls st (r : outcome (Model C)) st' :
  _get_model cfg C st = (r, st') ->
  heap st' = heap st /\
  exists load,
    calls st' = calls st ++ load /\
    (load = [] \/ exists r0, load = [CallSentenceTransformer C (EMBEDDING_MODEL cfg) r0]).
Proof.
  unfold _get_model, bind, get_global_model, external, set_global_model, ret.
  destruct (_model st) as [m|].
  - intros [= <- <-]. split; [reflexivity|]. exists []. rewrite app_nil_r. auto.
  - destruct (SentenceTransformer C (EMBEDDING_MODEL cfg) (world st)) as [[m|e] w];
      intros [= <- <-]; simpl; (split; [reflexivity|]); eexists; split; eauto.
Qed.

(** The calls of a run of [query], in order: at most the constructor,
    then the encode call, the fetch of the index and the search, up to
    the first one that raises. *)
Lemma query_calls_shape (request : QueryRequest) st (res : outcome dict) st' :
  query cfg C request st = (res, st') ->
  heap st' = heap st /\
  exists load tail,
    calls st' = calls st ++ load ++ tail /\
    (load = [] \/ exists r0, load = [CallSentenceTransformer C (EMBEDDING_MODEL cfg) r0]) /\
    (tail = [] \/
     (exists m e, tail = [CallEncode C m (query_text request) (Raise e)]) \/
     (exists m v e,
        tail = [CallEncode C m (query_text request) (Ok v);
                CallGetIndex C (_get_client cfg) (INDEX_NAME cfg) (Raise e)]) \/
     (exists m v idx r,
        tail = [CallEncode C m (query_text request) (Ok v);
                CallGetIndex C (_get_client cfg) (INDEX_NAME cfg) (Ok idx);
                CallQuery C idx (query_kwargs v (top_k request) (filters request)) r])).
Proof.
  unfold query, embed_text. intros Hrun.
  apply bind_inv in Hrun as [(e & Hembed & _) | (v & st1 & Hembed & Hrun)].
  - apply bind_inv in Hembed as [(e' & Hmodel & _) | (m & st0 & Hmodel & Hencode)];
      apply _get_model_calls in Hmodel as (Hh0 & load & Hc0 & Hload).
    + split; [exact Hh0|]. exists load, []. rewrite app_nil_r. auto.
    + apply external_spec in Hencode as (Hc1 & Hh1 & _).
      split; [congruence|]. exists load, [CallEncode C m (query_text request) (Raise e)].
      rewrite Hc1, Hc0, <- app_assoc. split; [reflexivity|]. split; [exact Hload|].
      right. left. eauto.
  - apply bind_inv in Hembed as [(e' & _ & [=]) | (m & st0 & Hmodel & Hencode)].
    apply _get_model_calls in Hmodel as (Hh0 & load & Hc0 & Hload).
    apply external_spec in Hencode as (Hc1 & Hh1 & _).
    assert (Hsim : exists (r : outcome (list dict)),
               query_similar cfg C v (top_k request) (filters request) st1 = (r, st')).
    { apply bind_inv in Hrun as [(e & Hsim & _) | (results & st2 & Hsim & [= _ <-])];
        eauto. }
    destruct Hsim as (r & Hsim). unfold query_similar in Hsim.
    apply bind_inv in Hsim as [(e' & Hget & _) | (idx & st3 & Hget & Hq)];
      apply external_spec in Hget as (Hc2 & Hh2 & _).
    + split; [congruence|]. exists load. eexists.
      rewrite Hc2, Hc1, Hc0, <- !app_assoc. split; [reflexivity|]. split; [exact Hload|].
      right. right. left. eauto.
    + apply external_spec in Hq as (Hc3 & Hh3 & _).
      split; [congruence|]. exists load. eexists.
      rewrite Hc3, Hc2, Hc1, Hc0, <- !app_assoc. split; [reflexivity|]. split; [exact Hload|].
      right. right. right. eauto.
Qed.

(** A query only reads: it writes nothing to the vector store (no upsert
    and no index creation, also when the index is missing), it leaves the
    heap as it was, and it makes at most two calls to the store, the
    fetch of the index and the search. *)
Theorem query_is_read_only (request : QueryRequest) st (res : outcome dict) st' :
  query cfg C request st = (res, st') ->
  heap st' = heap st /\
  exists new,
    calls st' = calls st ++ new /\
    filter (is_write_call C) new = [] /\
    (length (filter (is_store_call C) new) <= 2)%nat.
Proof.
  intros Hrun. destruct (query_calls_shape _ _ _ _ Hrun) as (Hh & load & tail & Hc & Hload & Htail).
  split; [exact Hh|]. exists (load ++ tail). split; [exact Hc|].
  rewrite !filter_app.
  destruct Hload as [-> | [r0 ->]];
    destruct Htail as [-> | [(m & e & ->) | [(m & v & e & ->) | (m & v & idx & r & ->)]]];
    simpl; split; (reflexivity || lia).
Qed.

Lemma query_kwargs_top_k (v : list float) (k : Z) (f : option dict) :
  dict_get "top_k" (query_kwargs v k f) = Some (PyInt k) /\
  dict_get "vector" (query_kwargs v k f) = Some (vector_value v).
Proof.
  unfold query_kwargs. destruct f as [[|kv f]|]; simpl; split; reflexivity.
Qed.

(** Whatever body [POST /query] receives, a search call that reaches the
    vector store carries a [top_k] between 1 and 50. *)
Theorem post_query_search_bound (body : QueryBody) st (res : outcome dict) st'
    (new : list (call C)) (idx : Index C) (kwargs : dict) (r : outcome (list dict)) :
  post_query cfg C body st = (res, st') ->
  calls st' = calls st ++ new ->
  In (CallQuery C idx kwargs r) new ->
  exists k, dict_get "top_k" kwargs = Some (PyInt k) /\ 1 <= k <= 50.
Proof.
  unfold post_query. intros Hrun Hcalls Hin.
  destruct (validate_QueryRequest body) as [request|e] eqn:Hval.
  - assert (Hrange : 1 <= top_k request <= 50).
    { unfold validate_QueryRequest in Hval.
      destruct (body_query_text body) as [q|]; [|discriminate].
      destruct (1 <=? _) eqn:E1; simpl in Hval; [|discriminate].
      destruct (_ <=? 50) eqn:E2; simpl in Hval; [|discriminate].
      injection Hval as <-. simpl. apply Z.leb_le in E1, E2. lia. }
    destruct (query_calls_shape _ _ _ _ Hrun) as (_ & load & tail & Hc & Hload & Htail).
    rewrite Hcalls in Hc. apply app_inv_head in Hc. subst new.
    exists (top_k request). split; [|exact Hrange].
    apply in_app_or in Hin as [Hin | Hin].
    + destruct Hload as [-> | [r0 ->]]; [destruct Hin|].
      destruct Hin as [Hin | []]. discriminate Hin.
    + destruct Htail as [-> | [(m & e & ->) | [(m & v & e & ->) | (m & v & idx' & r' & ->)]]];
        simpl in Hin; try (intuition discriminate).
      destruct Hin as [Hin | [Hin | [Hin | []]]]; try discriminate Hin.
      injection Hin as _ <- _. apply query_kwargs_top_k.
  - injection Hrun as _ <-.
    rewrite <- (app_nil_r (calls st)) in Hcalls at 1.
    apply app_inv_head in Hcalls. subst new. destruct Hin.
Qed.

(** The calls of a run of [ingest] on a non-empty request, in order: at
    most the constructor, then the batch encode call, the fetch of the
    index and the upsert, up to the first one that raises. *)
Lemma ingest_calls_shape (request : IngestRequest) st (res : outcome dict) st' :
  documents request <> [] ->
  ingest cfg C request st = (res, st') ->
  exists load tail,
    calls st' = calls st ++ load ++ tail /\
    (load = [] \/ exists r0, load = [CallSentenceTransformer C (EMBEDDING_MODEL cfg) r0]) /\
    ((tail = [] /\ exists e, res = Raise e) \/
     (exists m e,
        tail = [CallEncodeBatch C m (map doc_text (documents request)) (Raise e)] /\
        res = Raise e) \/
     (exists m vectors e,
        tail = [CallEncodeBatch C m (map doc_text (documents request)) (Ok vectors);
                CallGetIndex C (_get_client cfg) (INDEX_NAME cfg) (Raise e)] /\
        res = Raise e) \/
     (exists m vectors idx records r,
        tail = [CallEncodeBatch C m (map doc_text (documents request)) (Ok vectors);
                CallGetIndex C (_get_client cfg) (INDEX_NAME cfg) (Ok idx);
                CallUpsert C idx records r] /\
        length records = Nat.min (length (documents request)) (length vectors) /\
        res = match r with
              | Ok _ => Ok (ingest_response request)
              | Raise e => Raise e
              end)).
Proof.
  intros Hne. unfold ingest.
  destruct (documents request) as [|d0 ds] eqn:Hdocs; [congruence|].
  rewrite <- Hdocs. clear Hne. intros Hrun.
  apply bind_inv in Hrun as [(e & Hembed & ->) | (vectors & st1 & Hembed & Hrun)];
    unfold embed_texts in Hembed.
  - apply bind_inv in Hembed as [(e' & Hmodel & [= <-]) | (m & st0 & Hmodel & Hencode)];
      apply _get_model_calls in Hmodel as (_ & load & Hc0 & Hload).
    + exists load, []. rewrite app_nil_r. split; [exact Hc0|]. split; [exact Hload|].
      left. eauto.
    + apply external_spec in Hencode as (Hc1 & _ & _).
      exists load. eexists. rewrite Hc1, Hc0, <- app_assoc.
      split; [reflexivity|]. split; [exact Hload|]. right. left. eauto.
  - apply bind_inv in Hembed as [(e' & _ & [=]) | (m & st0 & Hmodel & Hencode)].
    apply _get_model_calls in Hmodel as (_ & load & Hc0 & Hload).
    apply external_spec in Hencode as (Hc1 & _ & _).
    destruct (ingest_loop_spec C (zip (documents request) vectors) [] st1)
      as (recs & objs & Hloop & Hbuilt).
    rewrite (bind_Ok C _ _ _ _ _ Hloop) in Hrun. simpl app in Hrun.
    assert (Hlen : length recs = Nat.min (length (documents request)) (length vectors)).
    { rewrite <- (Forall2_length _ _ _ Hbuilt). apply length_zip_with. }
    assert (Hup : exists (r : outcome unit),
               upsert_documents cfg C recs (with_heap C st1 (heap st1 ++ objs)) = (r, st') /\
               res = match r with
                     | Ok _ => Ok (ingest_response request)
                     | Raise e => Raise e
                     end).
    { apply bind_inv in Hrun as [(e & Hupsert & ->) | ([] & st3 & Hupsert & [= <- <-])];
        eauto. }
    destruct Hup as (r & Hupsert & ->). unfold upsert_documents in Hupsert.
    apply bind_inv in Hupsert as [(e' & Hget & ->) | (idx & st2 & Hget & Hupsert)];
      apply external_spec in Hget as (Hc2 & _ & _); simpl in Hc2.
    + exists load. eexists. rewrite Hc2, Hc1, Hc0, <- !app_assoc.
      split; [reflexivity|]. split; [exact Hload|]. right. right. left. eauto.
    + unfold bind, get_heap in Hupsert.
      apply external_spec in Hupsert as (Hc3 & _ & _).
      exists load. eexists. rewrite Hc3, Hc2, Hc1, Hc0, <- !app_assoc.
      split; [reflexivity|]. split; [exact Hload|]. right. right. right.
      exists m, vectors, idx. eexists. exists r. split; [reflexivity|].
      split; [|reflexivity]. rewrite length_map. exact Hlen.
Qed.

(** [ingest] never creates the index: when the index cannot be fetched
    the request fails and nothing is written. And the vector store is
    called only after the embedding of the batch has returned: when the
    model cannot be loaded or the encode call raises, no call reaches
    the store. *)
Theorem ingest_store_calls (request : IngestRequest) st (res : outcome dict) st' :
  ingest cfg C request st = (res, st') ->
  exists new,
    calls st' = calls st ++ new /\
    filter (is_create_call C) new = [] /\
    ((forall m vectors,
        ~ In (CallEncodeBatch C m (map doc_text (documents request)) (Ok vectors)) new) ->
     filter (is_store_call C) new = []) /\
    ((forall idx, ~ In (CallGetIndex C (_get_client cfg) (INDEX_NAME cfg) (Ok idx)) new) ->
     filter (is_write_call C) new = [] /\ exists e, res = Raise e).
Proof.
  intros Hrun. destruct (documents request) as [|d0 ds] eqn:Hdocs.
  - unfold ingest in Hrun. rewrite Hdocs in Hrun. injection Hrun as <- <-.
    exists []. rewrite app_nil_r. repeat split; eauto.
  - rewrite <- Hdocs.
    destruct (ingest_calls_shape request st res st') as (load & tail & Hc & Hload & Htail);
      [congruence | exact Hrun |].
    exists (load ++ tail). split; [exact Hc|]. rewrite !filter_app.
    destruct Hload as [-> | [r0 ->]];
      destruct Htail as [[-> [e ->]] | [(m & e & -> & ->) | [(m & vs & e & -> & ->) |
                         (m & vs & idx & recs & r & -> & _ & ->)]]];
      simpl; (split; [reflexivity|]); split;
      try (intros _; reflexivity);
      try (intros _; split; [reflexivity | eauto]);
      intros Hno; exfalso; eapply Hno; simpl; eauto 6.
Qed.

(** The batch follows [zip]: a successful ingest hands the store as many
    records as there are (document, vector) pairs, the shorter of the two
    lengths, while the response counts the documents of the request. *)
Theorem ingest_batch_length (request : IngestRequest) st (resp : dict) st' :
  ingest cfg C request st = (Ok resp, st') ->
  exists new m vectors idx records,
    calls st' = calls st ++ new /\
    In (CallEncodeBatch C m (map doc_text (documents request)) (Ok vectors)) new /\
    In (CallUpsert C idx records (Ok tt)) new /\
    length records = Nat.min (length (documents request)) (length vectors) /\
    dict_get "ingested" resp = Some (PyInt (Z.of_nat (length (documents request)))).
Proof.
  intros Hrun. destruct (documents request) as [|d0 ds] eqn:Hdocs.
  - unfold ingest in Hrun. rewrite Hdocs in Hrun. discriminate Hrun.
  - rewrite <- Hdocs.
    destruct (ingest_calls_shape request st (Ok resp) st') as (load & tail & Hc & _ & Htail);
      [congruence | exact Hrun |].
    destruct Htail as [[_ [e He]] | [(m & e & _ & He) | [(m & vs & e & _ & He) |
                       (m & vs & idx & recs & r & -> & Hlen & Hres)]]];
      try discriminate He.
    destruct r as [[]|e]; [|discriminate Hres]. injection Hres as ->.
    exists (load ++ [CallEncodeBatch C m (map doc_text (documents request)) (Ok vs);
                     CallGetIndex C (_get_client cfg) (INDEX_NAME cfg) (Ok idx);
                     CallUpsert C idx recs (Ok tt)]), m, vs, idx, recs.
    split; [exact Hc|]. split; [|split; [|split; [exact Hlen | reflexivity]]];
      apply in_or_app; right; simpl; auto.
Qed.

(** A startup that succeeds leaves the model loaded and has found or
    created the index: after the warm-up, its calls end either with a
    fetch that returned or with a fetch that raised followed by a
    creation that returned. *)
Theorem startup_success st st' :
  lifespan_startup cfg C st = (Ok tt, st') ->
  (exists m, _model st' = Some m) /\
  exists pre guard,
    calls st' = calls st ++ pre ++ guard /\
    filter (is_store_call C) pre = [] /\
    ((exists idx, guard = [CallGetIndex C (_get_client cfg) (INDEX_NAME cfg) (Ok idx)]) \/
     (exists e,
        guard = [CallGetIndex C (_get_client cfg) (INDEX_NAME cfg) (Raise e);
                 CallCreateIndex C (_get_client cfg) (INDEX_NAME cfg) (EMBEDDING_DIM cfg)
                   (SPACE_TYPE cfg) (INT8 C) (Ok tt)])).
Proof.
  unfold lifespan_startup. intros Hstart.
  apply bind_inv in Hstart as [(e & _ & [=]) | (v0 & st0 & Hwarm & Hguard)].
  destruct (embed_text_loads _ _ _ _ Hwarm) as [m Hm0].
  pose proof (ensure_index_exists_keeps_model _ _ _ Hguard) as [Hkeep _].
  split; [exists m; congruence|].
  unfold embed_text in Hwarm.
  apply bind_inv in Hwarm as [(e & _ & [=]) | (m' & st00 & Hmodel & Hencode)].
  apply _get_model_calls in Hmodel as (_ & load & Hc0 & Hload).
  apply external_spec in Hencode as (Hc1 & _ & _).
  exists (load ++ [CallEncode C m' "warmup" (Ok v0)]).
  revert Hguard.
  unfold ensure_index_exists, try_except, bind, client_get_index, external, ret.
  destruct (get_index C (_get_client cfg) (INDEX_NAME cfg) (world st0)) as [[idx|e] w]; simpl.
  - intros [= <-]. simpl. eexists. rewrite Hc1, Hc0, <- !app_assoc.
    split; [reflexivity|]. split; [|left; eauto].
    rewrite filter_app. destruct Hload as [-> | [r0 ->]]; reflexivity.
  - destruct (create_index C _ _ _ _ _ w) as [r' w']. intros [= -> <-]. simpl.
    eexists. rewrite Hc1, Hc0, <- !app_assoc.
    split; [reflexivity|]. split; [|right; eauto].
    rewrite filter_app. destruct Hload as [-> | [r0 ->]]; reflexivity.
Qed.

(** When the warm-up embedding raises, startup ends with that exception
    and the vector store is not called at all: the index is neither
    fetched nor created. *)
Theorem startup_warmup_failure st (e : exn) st1 :
  embed_text cfg C "warmup" st = (Raise e, st1) ->
  lifespan_startup cfg C st = (Raise e, st1) /\
  exists new,
    calls st1 = calls st ++ new /\ filter (is_store_call C) new = [].
Proof.
  intros Hwarm. split.
  - unfold lifespan_startup, bind. rewrite Hwarm. reflexivity.
  - unfold embed_text in Hwarm.
    apply bind_inv in Hwarm as [(e' & Hmodel & _) | (m & st0 & Hmodel & Hencode)];
      apply _get_model_calls in Hmodel as (_ & load & Hc0 & Hload).
    + exists load. split; [exact Hc0|]. destruct Hload as [-> | [r0 ->]]; reflexivity.
    + apply external_spec in Hencode as (Hc1 & _ & _).
      eexists. rewrite Hc1, Hc0, <- app_assoc. split; [reflexivity|].
      rewrite filter_app. destruct Hload as [-> | [r0 ->]]; reflexivity.
Qed.

Lemma dict_keys_setitem (k : string) (v : Any) (d : dict) :
  dict_keys (dict_setitem k v d) =
    if dict_contains k d then dict_keys d else dict_keys d ++ [k].
Proof.
  unfold dict_keys, dict_contains. induction d as [|[k' v'] d IH]; simpl; [reflexivity|].
  destruct (String.eqb k' k) eqn:E; simpl; [reflexivity|].
  rewrite IH. destruct (dict_get k d); reflexivity.
Qed.

(** The metadata of a stored record keeps the keys of the document's
    [meta] in their order; ["snippet"] keeps its place when the document
    supplied one and goes last otherwise; and no key occurs twice when
    none did in the document's [meta]. *)
Theorem ingest_meta_keys (request : IngestRequest) st (res : outcome dict) st'
    (new : list (call C)) (idx : Index C) (records : list Any) (r : outcome unit)
    (i : nat) (rec : Any) :
  allocated (heap st) request ->
  ingest cfg C request st = (res, st') ->
  calls st' = calls st ++ new ->
  In (CallUpsert C idx records r) new ->
  records !! i = Some rec ->
  exists doc vector meta,
    documents request !! i = Some doc /\
    rec = PyDict [("id", PyStr (doc_id doc));
                  ("vector", vector_value vector);
                  ("meta", PyDict meta)] /\
    dict_keys meta =
      (if dict_contains "snippet" (meta_content (heap st) doc)
       then dict_keys (meta_content (heap st) doc)
       else dict_keys (meta_content (heap st) doc) ++ ["snippet"]) /\
    (dict_wf (meta_content (heap st) doc) -> dict_wf meta).
Proof.
  intros Halloc Hrun Hcalls Hin Hrec.
  destruct (ingest_upsert_batch cfg C _ _ _ _ _ _ _ _ Hrun Hcalls Hin)
    as (m & vectors & recs & w & w' & _ & -> & Hbuilt & _).
  destruct (built_record_lookup _ _ _ _ _ _ _ Hbuilt Hrec)
    as (doc & vector & d & Hdoc & _ & -> & Hcontent).
  assert (Hd : d = meta_content (heap st) doc).
  { apply Hcontent. intros a Ha. apply (Halloc doc a); [|exact Ha].
    apply list_elem_of_In. eapply list_elem_of_lookup_2. exact Hdoc. }
  subst d.
  eexists doc, vector, _. split; [exact Hdoc|]. split; [reflexivity|].
  split; [apply dict_keys_setitem | apply dict_setitem_wf].
Qed.

End OrchestrationMore.

(** * Further properties of strings, paths and the bulk loader *)

Lemma string_append_nil_r (s : string) : s +:+ "" = s.
Proof.
  induction s as [|c s IH]; [reflexivity|].
  change (String c (s +:+ "") = String c s). f_equal. exact IH.
Qed.

Lemma string_length_append (s t : string) :
  String.length (s +:+ t) = (String.length s + String.length t)%nat.
Proof.
  induction s as [|c s IH]; [reflexivity|].
  change (S (String.length (s +:+ t)) = S (String.length s + String.length t)).
  f_equal. exact IH.
Qed.

Lemma substring_0_all (t : string) : substring 0 (String.length t) t = t.
Proof.
  induction t as [|c t IH]; [reflexivity|].
  change (String c (substring 0 (String.length t) t) = String c t). f_equal. exact IH.
Qed.

Lemma substring_split (i : nat) (s : string) :
  (i <= String.length s)%nat ->
  substring 0 i s +:+ substring i (String.length s - i) s = s.
Proof.
  revert s. induction i as [|i IH]; intros s Hi.
  - rewrite Nat.sub_0_r.
    replace (substring 0 0 s) with EmptyString by (destruct s; reflexivity).
    change (substring 0 (String.length s) s = s). apply substring_0_all.
  - destruct s as [|c s]; [simpl in Hi; lia|].
    change (String c (substring 0 i s +:+ substring i (String.length s - i) s) = String c s).
    f_equal. apply IH. simpl in Hi. lia.
Qed.

Lemma substring_0_length (i : nat) (s : string) :
  (i <= String.length s)%nat -> String.length (substring 0 i s) = i.
Proof.
  intros Hi. rewrite substring_0_length_min. lia.
Qed.

(** The snippet is a preview of bounded length, in characters: it has the
    text's length when that is at most 200 and 203 characters otherwise,
    and its first 200 characters are the first 200 characters of the
    text. *)
Theorem snippet_of_bounded (text : string) :
  str_len (snippet_of text) =
    (if (200 <? str_len text)%nat then 203%nat else str_len text) /\
  (str_len (snippet_of text) <= 203)%nat /\
  str_take 200 (snippet_of text) = str_take 200 text.
Proof.
  unfold snippet_of. destruct (200 <? str_len text)%nat eqn:E.
  - apply Nat.ltb_lt in E.
    assert (Hlen : str_len (str_take 200 text) = 200%nat)
      by (rewrite str_take_len; lia).
    rewrite str_len_append, Hlen. change (str_len "...") with 3%nat.
    split; [reflexivity|]. split; [lia|].
    rewrite <- Hlen at 1. apply str_take_append. reflexivity.
  - apply Nat.ltb_ge in E. split; [reflexivity|]. split; [lia | reflexivity].
Qed.

(** The client of the vector store is constructed with a [token]
    argument exactly when the configuration has a non-empty token, and
    then with that string; [set_base_url] receives the configured URL.
    With the configuration read from the environment, a variable
    [ENDEE_AUTH_TOKEN] that is unset or empty gives the constructor call
    without token. What the SDK makes of the argument is its own. *)
Theorem token_argument_nonempty (cfg : Config) (int : string -> option Z) (env : environ)
    (api : ApiConfig) (t : string) :
  load_config int env = Some (cfg, api) ->
  (token_argument (_get_client cfg) = Some t <->
   _get_env "ENDEE_AUTH_TOKEN" "" env = t /\ t <> "") /\
  base_url_argument (_get_client cfg) =
    Some (_get_env "ENDEE_BASE_URL" "http://localhost:8080/api/v1" env).
Proof.
  unfold load_config. intros Hload.
  destruct (int (_get_env "EMBEDDING_DIM" "384" env)) as [dim|]; [|discriminate].
  destruct (int (_get_env "API_PORT" "8000" env)) as [port|]; [|discriminate].
  injection Hload as <- _. unfold _get_client, ENDEE_AUTH_TOKEN_of. simpl.
  split; [|reflexivity].
  destruct (_get_env "ENDEE_AUTH_TOKEN" "" env) as [|c v] eqn:Htok; simpl.
  - split; [discriminate | intros [<- Hne]; congruence].
  - split; [intros [= <-]; split; [reflexivity | discriminate] | intros [<- _]; reflexivity].
Qed.

Section BulkLoaderMore.

Import IngestDocs.

Implicit Types (env : Environment) (e : DirEntry) (l : list DirEntry).

Lemma rfind_bound (c : ascii) (s : string) (i : nat) :
  rfind c s = Some i -> (i < String.length s)%nat.
Proof.
  revert i. induction s as [|a s IH]; simpl; [discriminate|].
  intros i. destruct (rfind c s) as [j|].
  - intros [= <-]. specialize (IH j eq_refl). lia.
  - destruct (Ascii.eqb a c); [intros [= <-]; lia | discriminate].
Qed.

(** A file name is its stem followed by its suffix, and the stem of a
    non-empty name is not empty: a name that starts with its only dot
    (a hidden file) or ends with a dot has no suffix. *)
Lemma path_stem_suffix (name : string) :
  path_stem name +:+ path_suffix name = name /\
  (name <> "" -> path_stem name <> "").
Proof.
  unfold path_stem, path_suffix.
  destruct (rfind "." name) as [i|] eqn:Hfind.
  - pose proof (rfind_bound _ _ _ Hfind) as Hlt.
    destruct ((0 <? i)%nat && (S i <? String.length name)%nat) eqn:Hcond.
    + apply andb_true_iff in Hcond as [Hpos _]. apply Nat.ltb_lt in Hpos.
      split; [apply substring_split; lia|].
      intros _ Hempty.
      assert (Hlen : String.length (substring 0 i name) = i)
        by (apply substring_0_length; lia).
      rewrite Hempty in Hlen. simpl in Hlen. lia.
    + split; [apply string_append_nil_r | auto].
  - split; [apply string_append_nil_r | auto].
Qed.








Lemma ascii_compare_trans (a b c : ascii) (o : comparison) :
  Ascii.compare a b = o -> Ascii.compare b c = o -> Ascii.compare a c = o.
Proof.
  unfold Ascii.compare. intros Hab Hbc.
  destruct o.
  - apply N.compare_eq_iff in Hab, Hbc. apply N.compare_eq_iff. congruence.
  - apply N.compare_lt_iff in Hab. apply N.compare_lt_iff in Hbc.
    apply N.compare_lt_iff. eapply N.lt_trans; eassumption.
  - apply N.compare_gt_iff in Hab. apply N.compare_gt_iff in Hbc.
    apply N.compare_gt_iff. eapply N.lt_trans; eassumption.
Qed.

Lemma string_compare_lt_trans (s t u : string) :
  String.compare s t = Lt -> String.compare t u = Lt -> String.compare s u = Lt.
Proof.
  revert t u. induction s as [|a s IH]; intros [|b t] [|c u]; simpl; try congruence.
  destruct (Ascii.compare a b) eqn:Eab; try discriminate;
    destruct (Ascii.compare b c) eqn:Ebc; try discriminate; intros Hst Htu.
  - rewrite (ascii_compare_trans _ _ _ _ Eab Ebc). eauto.
  - apply Ascii.compare_eq_iff in Eab. subst b. rewrite Ebc. reflexivity.
  - apply Ascii.compare_eq_iff in Ebc. subst c. rewrite Eab. reflexivity.
  - rewrite (ascii_compare_trans _ _ _ _ Eab Ebc). reflexivity.
Qed.

Lemma string_compare_refl (s : string) : String.compare s s = Eq.
Proof.
  induction s as [|a s IH]; simpl; [reflexivity|].
  unfold Ascii.compare. rewrite N.compare_refl. exact IH.
Qed.

Lemma string_leb_trans (s t u : string) :
  String.leb s t = true -> String.leb t u = true -> String.leb s u = true.
Proof.
  unfold String.leb.
  destruct (String.compare s t) eqn:Est; try discriminate;
    destruct (String.compare t u) eqn:Etu; try discriminate; intros _ _.
  - apply String.compare_eq_iff in Est, Etu. subst. rewrite string_compare_refl. reflexivity.
  - apply String.compare_eq_iff in Est. subst. rewrite Etu. reflexivity.
  - apply String.compare_eq_iff in Etu. subst. rewrite Est. reflexivity.
  - rewrite (string_compare_lt_trans _ _ _ Est Etu). reflexivity.
Qed.

Lemma string_ltb_false_leb (s t : string) : String.ltb s t = false -> String.leb t s = true.
Proof.
  unfold String.ltb, String.leb. rewrite (String.compare_antisym t s).
  destruct (String.compare s t); simpl; congruence.
Qed.

Lemma string_ltb_leb (s t : string) : String.ltb s t = true -> String.leb s t = true.
Proof.
  unfold String.ltb, String.leb. destruct (String.compare s t); congruence.
Qed.

Lemma insert_sorted_perm e l : insert_sorted e l ≡ₚ e :: l.
Proof.
  induction l as [|x l IH]; simpl; [reflexivity|].
  destruct (String.ltb (entry_name e) (entry_name x)); [reflexivity|].
  rewrite IH. apply Permutation_swap.
Qed.

Lemma insert_sorted_sorted e l :
  StronglySorted by_name l -> StronglySorted by_name (insert_sorted e l).
Proof.
  induction l as [|x l IH]; simpl; intros Hl.
  - repeat constructor.
  - apply StronglySorted_inv in Hl as [Hl Hx].
    destruct (String.ltb (entry_name e) (entry_name x)) eqn:E.
    + constructor; [constructor; assumption|].
      constructor; [apply string_ltb_leb; exact E|].
      eapply Forall_impl; [exact Hx|]. intros y Hy. unfold by_name in *.
      eapply string_leb_trans; [apply string_ltb_leb; exact E | exact Hy].
    + constructor; [apply IH; exact Hl|].
      rewrite insert_sorted_perm. constructor; [|exact Hx].
      apply string_ltb_false_leb. exact E.
Qed.

Lemma sorted_spec l : sorted l ≡ₚ l /\ StronglySorted by_name (sorted l).
Proof.
  unfold sorted.
  assert (Hgen : forall acc, StronglySorted by_name acc ->
            fold_left (fun acc e => insert_sorted e acc) l acc ≡ₚ acc ++ l /\
            StronglySorted by_name (fold_left (fun acc e => insert_sorted e acc) l acc)).
  { induction l as [|e l IH]; intros acc Hacc; simpl.
    - rewrite app_nil_r. split; [reflexivity | exact Hacc].
    - destruct (IH (insert_sorted e acc) (insert_sorted_sorted e acc Hacc)) as [Hp Hs].
      split; [|exact Hs]. rewrite Hp, insert_sorted_perm.
      simpl. apply Permutation_middle. }
  apply (Hgen []). constructor.
Qed.

Lemma filter_strongly_sorted (p : DirEntry -> bool) l :
  StronglySorted by_name l -> StronglySorted by_name (filter p l).
Proof.
  induction 1 as [|x l Hl IH Hx]; [constructor|].
  rewrite filter_cons. destruct (decide (p x)).
  - constructor; [exact IH|]. apply Forall_forall. intros y Hy.
    apply list_elem_of_filter in Hy as [_ Hy]. rewrite Forall_forall in Hx. auto.
  - exact IH.
Qed.

(** [load_documents] on an existing directory (listed and read without
    error) prints nothing and returns exactly one document for each listed
    regular file with a wanted suffix, as often as the file is listed and
    no other, each built from its file, in ascending order of file
    names. *)
Theorem load_documents_selected env l :
  docs_dir env = Some l ->
  snd (load_documents env) = [] /\
  exists selected,
    fst (load_documents env) = map (document_of env) selected /\
    StronglySorted by_name selected /\
    selected ≡ₚ filter (fun e => is_document_file e) l /\
    length (fst (load_documents env)) = length (filter (fun e => is_document_file e) l).
Proof.
  intros Hdir. unfold load_documents. rewrite Hdir. simpl. split; [reflexivity|].
  exists (filter (fun e => is_document_file e) (sorted l)).
  destruct (sorted_spec l) as [Hperm Hsorted].
  split; [reflexivity|]. split; [apply filter_strongly_sorted; exact Hsorted|].
  split; [rewrite Hperm; reflexivity|].
  rewrite length_map, Hperm. reflexivity.
Qed.

(** The documents do not depend on the order in which the directory is
    listed: two listings of the same entries, with distinct names, give
    the same documents in the same order. *)
Theorem load_documents_order_independent env l l' :
  NoDup (map entry_name l) ->
  l ≡ₚ l' ->
  load_documents (with_listing env l) = load_documents (with_listing env l').
Proof.
  intros Hnodup Hperm. unfold load_documents, with_listing; simpl.
  assert (Hsame : sorted l = sorted l').
  { destruct (sorted_spec l) as [Hp Hs], (sorted_spec l') as [Hp' Hs'].
    apply (StronglySorted_unique_strong by_name); [|assumption..|].
    - intros x1 x2 Hx1 Hx2 H12 H21.
      rewrite Hp in Hx1. rewrite Hp', <- Hperm in Hx2.
      pose proof (String.leb_antisym _ _ H12 H21) as Hname.
      apply list_elem_of_lookup in Hx1 as [i Hi], Hx2 as [j Hj].
      assert (i = j).
      { change (map entry_name l) with (entry_name <$> l) in Hnodup.
        apply (NoDup_lookup _ i j (entry_name x1) Hnodup);
          rewrite list_lookup_fmap; [rewrite Hi | rewrite Hj, Hname]; reflexivity. }
      subst j. congruence.
    - rewrite Hp, Hp'. exact Hperm. }
  rewrite Hsame. reflexivity.
Qed.

Lemma payload_of_items (docs : list Document) :
  exists items,
    payload_of docs = PyDict [("documents", PyList items)] /\
    length items = length docs /\
    forall i d,
      docs !! i = Some d ->
      items !! i = Some (PyDict [("id", PyStr (id d)); ("text", PyStr (d_text d));
                                 ("meta", PyDict (meta d))]).
Proof.
  unfold payload_of. eexists. split; [reflexivity|]. split; [apply length_map|].
  intros i d Hd.
  change (map ?f docs) with (f <$> docs). rewrite list_lookup_fmap, Hd. reflexivity.
Qed.

(** No exception of [requests] leaves [main]. The exit status is 0 or 1.
    When documents were found, [main] makes one post, to
    [http://localhost:8000/ingest] with a timeout of 60, whose body is
    [{"documents": items}] with one item per loaded document, in their
    order, each the document's id, text and meta. *)
Theorem main_endings env :
  (forall ex, ended (main env) = Uncaught ex ->
     isinstance_RequestException (exc_cls ex) = false) /\
  (exit_status env = 0 \/ exit_status env = 1) /\
  (~ no_documents env ->
   exists items,
     posts (main env) =
       [("http://localhost:8000/ingest", PyDict [("documents", PyList items)], 60)] /\
     length items = length (fst (load_documents env)) /\
     forall i d,
       fst (load_documents env) !! i = Some d ->
       items !! i = Some (PyDict [("id", PyStr (id d)); ("text", PyStr (d_text d));
                                  ("meta", PyDict (meta d))])).
Proof.
  assert (Hposts : ~ no_documents env ->
            posts (main env) =
              [("http://localhost:8000/ingest", payload_of (fst (load_documents env)), 60)]).
  { unfold no_documents. intros Hsome. rewrite (main_with_documents env Hsome). simpl.
    destruct (try_body env (fst (load_documents env)) (the_post env)) as [[ex|status] out];
      [|reflexivity].
    destruct (isinstance_ConnectionError (exc_cls ex)); [reflexivity|].
    destruct (isinstance_RequestException (exc_cls ex)); reflexivity. }
  assert (Hitems : ~ no_documents env ->
            exists items,
              posts (main env) =
                [("http://localhost:8000/ingest", PyDict [("documents", PyList items)], 60)] /\
              length items = length (fst (load_documents env)) /\
              forall i d,
                fst (load_documents env) !! i = Some d ->
                items !! i = Some (PyDict [("id", PyStr (id d)); ("text", PyStr (d_text d));
                                           ("meta", PyDict (meta d))])).
  { intros Hsome. destruct (payload_of_items (fst (load_documents env)))
      as (items & Hpayload & Hlen & Hitem).
    exists items. rewrite (Hposts Hsome), Hpayload. auto. }
  destruct (fst (load_documents env)) as [|d ds] eqn:Hdocs.
  - assert (Hnone : no_documents env) by exact Hdocs.
    destruct (exit_status_no_documents env Hnone) as [Hexit _].
    split; [|split; [right; exact Hexit | intros Hne; contradiction]].
    intros ex Hex. unfold main in Hex.
    destruct (load_documents env) as [docs printed]. simpl in Hdocs. subst docs.
    discriminate Hex.
  - assert (Hsome : fst (load_documents env) <> []) by congruence.
    split; [|split; [|exact Hitems]].
    + rewrite (main_with_documents env Hsome). rewrite Hdocs. simpl.
      destruct (try_body env (d :: ds) (the_post env)) as [[ex|status] out];
        [|discriminate].
      destruct (isinstance_ConnectionError (exc_cls ex)); [discriminate|].
      destruct (isinstance_RequestException (exc_cls ex)) eqn:Hreq; [discriminate|].
      intros ex' [= <-]. exact Hreq.
    + unfold exit_status. rewrite (main_with_documents env Hsome). rewrite Hdocs. simpl.
      destruct (try_body env (d :: ds) (the_post env)) as [[ex|status] out] eqn:Htry.
      * destruct (isinstance_ConnectionError (exc_cls ex)); [right; reflexivity|].
        destruct (isinstance_RequestException (exc_cls ex)); right; reflexivity.
      * unfold try_body in Htry.
        destruct (the_post env) as [resp|ex]; [|discriminate].
        destruct (raise_for_status env resp); [discriminate|].
        destruct (json resp) as [[| | | | | |data]|ex]; try discriminate.
        injection Htry as <- _. left. reflexivity.
Qed.

(** On success the loader prints one line with the count the server
    reported under ["ingested"], and with its own count of documents when
    the answer has no such entry. *)
Theorem main_success_output env (resp : Response) (data : dict) :
  ~ no_documents env ->
  the_post env = PostReturns resp ->
  ~ http_error resp ->
  json resp = JsonValue (PyDict data) ->
  stdout (main env) =
    ["Ingested " +:+
     py_str env (match dict_get "ingested" data with
                 | Some n => n
                 | None => PyInt (Z.of_nat (length (fst (load_documents env))))
                 end) +:+ " documents."].
Proof.
  unfold no_documents. intros Hdocs Hpost Hok Hjson.
  rewrite (main_with_documents env Hdocs), Hpost. simpl.
  rewrite (raise_for_status_ok env resp Hok), Hjson. reflexivity.
Qed.

(** Every file that [load_documents] keeps splits into the document's id
    and a suffix: the name recorded under ["source"] is the id followed by
    a suffix that reads [.md], [.txt] or [.rst] in lower case, and the id
    is not empty. *)
Theorem document_source_splits env e :
  is_document_file e = true ->
  exists sfx,
    entry_name e = id (document_of env e) +:+ sfx /\
    dict_get "source" (meta (document_of env e)) = Some (PyStr (entry_name e)) /\
    (str_lower sfx = ".md" \/ str_lower sfx = ".txt" \/ str_lower sfx = ".rst") /\
    id (document_of env e) <> "".
Proof.
  unfold is_document_file. intros Hfile.
  apply andb_true_iff in Hfile as [_ Hwanted].
  destruct (path_stem_suffix (entry_name e)) as [Hjoin Hstem].
  assert (Hsfx : str_lower (path_suffix (entry_name e)) = ".md" \/
                 str_lower (path_suffix (entry_name e)) = ".txt" \/
                 str_lower (path_suffix (entry_name e)) = ".rst").
  { unfold wanted_suffix in Hwanted.
    apply orb_true_iff in Hwanted as [Hwanted | Hrst].
    - apply orb_true_iff in Hwanted as [Hmd | Htxt].
      + left. apply String.eqb_eq. exact Hmd.
      + right. left. apply String.eqb_eq. exact Htxt.
    - right. right. apply String.eqb_eq. exact Hrst. }
  exists (path_suffix (entry_name e)). simpl.
  split; [symmetry; exact Hjoin|]. split; [reflexivity|]. split; [exact Hsfx|].
  apply Hstem. intros Hempty. rewrite Hempty in Hsfx.
  destruct Hsfx as [H | [H | H]]; discriminate H.
Qed.

End BulkLoaderMore.

(** A document built by the loader passes through [ingest] with its
    metadata as the loader made it. When a request holding it is
    answered, with a provider that returns one vector per text, the batch
    handed to the vector store has at the document's position a record
    with the file's stem as id and the loader's title, source and snippet
    as metadata: the snippet [ingest] derives is the one the loader had
    put there. *)
Theorem loader_meta_stored_verbatim (cfg : Config) (C : Collaborators)
    (env : IngestDocs.Environment) (e : IngestDocs.DirEntry) (a : addr)
    (request : IngestRequest) (st : State C) (resp : dict) (st' : State C) (i : nat) :
  one_vector_per_text C ->
  documents request !! i = Some (as_input (IngestDocs.document_of env e) a) ->
  heap st !! a = Some (IngestDocs.meta (IngestDocs.document_of env e)) ->
  ingest cfg C request st = (Ok resp, st') ->
  exists new idx records vector,
    calls st' = calls st ++ new /\
    filter (is_upsert_call C) new = [CallUpsert C idx records (Ok tt)] /\
    records !! i =
      Some (PyDict [("id", PyStr (IngestDocs.path_stem (IngestDocs.entry_name e)));
                    ("vector", vector_value vector);
                    ("meta", PyDict (IngestDocs.meta (IngestDocs.document_of env e)))]).
Proof.
  intros Hcontract Hdoc Hmeta Hrun.
  destruct (ingest_success_records cfg C _ _ _ _ Hcontract Hrun)
    as (new & idx & vectors & recs & Hc & Hup & Hbuilt & Hlen).
  destruct (built_record_at _ _ _ _ _ _ _ Hbuilt Hlen Hdoc)
    as (vector & d & _ & Hrec & Hcontent).
  exists new, idx, (map (record_value (heap st')) recs), vector.
  split; [exact Hc|]. split; [exact Hup|].
  rewrite Hrec, Hcontent.
  - unfold meta_content, deref. simpl. rewrite Hmeta. reflexivity.
  - simpl. intros a' [= <-]. eapply lookup_lt_Some. exact Hmeta.
Qed.

(** ** The further theorems applied to concrete runs *)

Example truncated_batch_counts_documents :
  fst truncating_run = Ok [("status", PyStr "ok"); ("ingested", PyInt 2)] /\
  world (snd truncating_run) =
    Some [PyDict [("id", PyStr "a");
                  ("vector", vector_value [float_one; float_zero]);
                  ("meta", PyDict [("source", PyStr "a.md");
                                   ("snippet", PyStr "hello world")])]].
Proof. vm_compute. split; reflexivity. Qed.

Lemma _get_model_cached_witness :
  _model (snd (_get_model default_config stub demo_state)) =
    Some (EMBEDDING_MODEL default_config) /\
  _get_model default_config stub (snd (_get_model default_config stub demo_state)) =
    (Ok (EMBEDDING_MODEL default_config), snd (_get_model default_config stub demo_state)).
Proof.
  refine (_get_model_cached default_config stub demo_state
            (Ok (EMBEDDING_MODEL default_config)) _ _).
  vm_compute. reflexivity.
Defined.

Lemma startup_run_ok :
  lifespan_startup default_config stub fresh_state = (Ok tt, started_state).
Proof. vm_compute. reflexivity. Qed.

Lemma started_query_run_ok :
  query default_config stub demo_query started_state =
    (Ok [("results", PyList (map PyDict stub_results))], snd started_query_run).
Proof. vm_compute. reflexivity. Qed.

Lemma query_after_startup_witness :
  exists m v idx results,
    calls (snd started_query_run) = calls started_state ++
      [CallEncode stub m (query_text demo_query) (Ok v);
       CallGetIndex stub (_get_client default_config) (INDEX_NAME default_config) (Ok idx);
       CallQuery stub idx
         (query_kwargs v (top_k demo_query) (filters demo_query)) (Ok results)] /\
    [("results", PyList (map PyDict stub_results))] =
      [("results", PyList (map PyDict results))].
Proof.
  exact (query_after_startup default_config stub demo_query fresh_state started_state
           _ _ startup_run_ok started_query_run_ok).
Defined.

Lemma startup_success_witness :
  (exists m, _model started_state = Some m) /\
  exists pre guard,
    calls started_state = calls fresh_state ++ pre ++ guard /\
    filter (is_store_call stub) pre = [] /\
    ((exists idx,
        guard = [CallGetIndex stub (_get_client default_config)
                   (INDEX_NAME default_config) (Ok idx)]) \/
     (exists e,
        guard = [CallGetIndex stub (_get_client default_config)
                   (INDEX_NAME default_config) (Raise e);
                 CallCreateIndex stub (_get_client default_config)
                   (INDEX_NAME default_config) (EMBEDDING_DIM default_config)
                   (SPACE_TYPE default_config) (INT8 stub) (Ok tt)])).
Proof.
  exact (startup_success default_config stub fresh_state started_state startup_run_ok).
Defined.

Lemma failing_warmup_run_raises :
  embed_text default_config failing_stub "warmup" failing_state =
    (Raise (CollaboratorError "out of memory"), snd failing_warmup_run).
Proof. vm_compute. reflexivity. Qed.

Lemma startup_warmup_failure_witness :
  lifespan_startup default_config failing_stub failing_state =
    (Raise (CollaboratorError "out of memory"), snd failing_warmup_run) /\
  exists new,
    calls (snd failing_warmup_run) = calls failing_state ++ new /\
    filter (is_store_call failing_stub) new = [].
Proof.
  exact (startup_warmup_failure default_config failing_stub failing_state _ _
           failing_warmup_run_raises).
Defined.

Lemma query_is_read_only_witness :
  heap (snd demo_query_run) = heap demo_state /\
  exists new,
    calls (snd demo_query_run) = calls demo_state ++ new /\
    filter (is_write_call stub) new = [] /\
    (length (filter (is_store_call stub) new) <= 2)%nat.
Proof.
  exact (query_is_read_only default_config stub demo_query demo_state _ _ demo_query_run_ok).
Defined.

Lemma post_query_search_bound_witness :
  exists k,
    dict_get "top_k" (query_kwargs (stub_embedding "hello") 5 None) = Some (PyInt k) /\
    1 <= k <= 50.
Proof.
  eapply (post_query_search_bound default_config stub demo_query_body demo_state
            _ _ _ "documents" (query_kwargs (stub_embedding "hello") 5 None) _).
  - vm_compute. reflexivity.
  - vm_compute. reflexivity.
  - simpl. right. right. right. left. reflexivity.
Defined.

Lemma ingest_store_calls_witness :
  exists new,
    calls (snd demo_ingest_run) = calls demo_state ++ new /\
    filter (is_create_call stub) new = [] /\
    ((forall m vectors,
        ~ In (CallEncodeBatch stub m (map doc_text (documents demo_ingest)) (Ok vectors)) new) ->
     filter (is_store_call stub) new = []) /\
    ((forall idx,
        ~ In (CallGetIndex stub (_get_client default_config)
                (INDEX_NAME default_config) (Ok idx)) new) ->
     filter (is_write_call stub) new = [] /\
     exists e, Ok [("status", PyStr "ok"); ("ingested", PyInt 2)] = Raise e).
Proof.
  exact (ingest_store_calls default_config stub demo_ingest demo_state _ _ demo_ingest_run_ok).
Defined.

Lemma truncating_run_ok :
  ingest default_config truncating_stub demo_ingest truncating_state =
    (Ok [("status", PyStr "ok"); ("ingested", PyInt 2)], snd truncating_run).
Proof. vm_compute. reflexivity. Qed.

Lemma ingest_batch_length_witness :
  exists new m vectors idx records,
    calls (snd truncating_run) = calls truncating_state ++ new /\
    In (CallEncodeBatch truncating_stub m (map doc_text (documents demo_ingest))
          (Ok vectors)) new /\
    In (CallUpsert truncating_stub idx records (Ok tt)) new /\
    length records = Nat.min (length (documents demo_ingest)) (length vectors) /\
    dict_get "ingested" [("status", PyStr "ok"); ("ingested", PyInt 2)] =
      Some (PyInt (Z.of_nat (length (documents demo_ingest)))).
Proof.
  exact (ingest_batch_length default_config truncating_stub demo_ingest truncating_state
           _ _ truncating_run_ok).
Defined.

Lemma ingest_meta_keys_witness :
  exists doc vector meta,
    documents demo_ingest !! 0%nat = Some doc /\
    demo_record = PyDict [("id", PyStr (doc_id doc));
                          ("vector", vector_value vector);
                          ("meta", PyDict meta)] /\
    dict_keys meta =
      (if dict_contains "snippet" (meta_content (heap demo_state) doc)
       then dict_keys (meta_content (heap demo_state) doc)
       else dict_keys (meta_content (heap demo_state) doc) ++ ["snippet"]) /\
    (dict_wf (meta_content (heap demo_state) doc) -> dict_wf meta).
Proof.
  eapply (ingest_meta_keys default_config stub demo_ingest demo_state
            _ _ _ _ _ _ 0%nat demo_record demo_ingest_allocated demo_ingest_run_ok).
  - vm_compute. reflexivity.
  - simpl. right. right. right. left. reflexivity.
  - reflexivity.
Defined.

Lemma token_argument_nonempty_witness :
  (token_argument (_get_client environ_config) = Some "secret" <->
   _get_env "ENDEE_AUTH_TOKEN" "" demo_environ = "secret" /\ "secret" <> "") /\
  base_url_argument (_get_client environ_config) =
    Some (_get_env "ENDEE_BASE_URL" "http://localhost:8080/api/v1" demo_environ).
Proof.
  apply (token_argument_nonempty environ_config stub_int demo_environ environ_api "secret").
  reflexivity.
Defined.

Lemma load_documents_selected_witness :
  snd (IngestDocs.load_documents LoaderDemo.env_ok) = [] /\
  exists selected,
    fst (IngestDocs.load_documents LoaderDemo.env_ok) =
      map (IngestDocs.document_of LoaderDemo.env_ok) selected /\
    StronglySorted by_name selected /\
    selected ≡ₚ filter (fun e => is_document_file e) LoaderDemo.one_file /\
    length (fst (IngestDocs.load_documents LoaderDemo.env_ok)) =
      length (filter (fun e => is_document_file e) LoaderDemo.one_file).
Proof.
  apply (load_documents_selected LoaderDemo.env_ok LoaderDemo.one_file). reflexivity.
Defined.

Lemma one_file_names_distinct : NoDup (map IngestDocs.entry_name LoaderDemo.one_file).
Proof.
  apply (bool_decide_unpack _). vm_compute. exact I.
Qed.

Lemma load_documents_order_independent_witness :
  IngestDocs.load_documents (with_listing LoaderDemo.env_ok LoaderDemo.one_file) =
  IngestDocs.load_documents (with_listing LoaderDemo.env_ok (rev LoaderDemo.one_file)).
Proof.
  apply load_documents_order_independent.
  - exact one_file_names_distinct.
  - apply Permutation_rev.
Defined.

Lemma env_ok_has_documents : ~ IngestDocs.no_documents LoaderDemo.env_ok.
Proof. vm_compute. discriminate. Qed.

Lemma main_endings_witness :
  exists items,
    IngestDocs.posts (IngestDocs.main LoaderDemo.env_ok) =
      [("http://localhost:8000/ingest", PyDict [("documents", PyList items)], 60)] /\
    length items = length (fst (IngestDocs.load_documents LoaderDemo.env_ok)) /\
    forall i d,
      fst (IngestDocs.load_documents LoaderDemo.env_ok) !! i = Some d ->
      items !! i = Some (PyDict [("id", PyStr (IngestDocs.id d));
                                 ("text", PyStr (IngestDocs.d_text d));
                                 ("meta", PyDict (IngestDocs.meta d))]).
Proof.
  apply (proj2 (proj2 (main_endings LoaderDemo.env_ok))). exact env_ok_has_documents.
Defined.

Lemma main_success_output_witness :
  IngestDocs.stdout (IngestDocs.main LoaderDemo.env_ok) =
    ["Ingested " +:+
     IngestDocs.py_str LoaderDemo.env_ok
       (match dict_get "ingested" [("status", PyStr "ok"); ("ingested", PyInt 1)] with
        | Some n => n
        | None =>
            PyInt (Z.of_nat (length (fst (IngestDocs.load_documents LoaderDemo.env_ok))))
        end) +:+ " documents."].
Proof.
  apply (main_success_output LoaderDemo.env_ok LoaderDemo.ok_response).
  - exact env_ok_has_documents.
  - reflexivity.
  - unfold IngestDocs.http_error. simpl. lia.
  - reflexivity.
Defined.

Lemma loader_run_ok :
  ingest default_config stub loader_request loader_state =
    (Ok [("status", PyStr "ok"); ("ingested", PyInt 1)], snd loader_run).
Proof. vm_compute. reflexivity. Qed.

Lemma loader_meta_stored_verbatim_witness :
  exists new idx records vector,
    calls (snd loader_run) = calls loader_state ++ new /\
    filter (is_upsert_call stub) new = [CallUpsert stub idx records (Ok tt)] /\
    records !! 0%nat =
      Some (PyDict [("id", PyStr (IngestDocs.path_stem (IngestDocs.entry_name loader_entry)));
                    ("vector", vector_value vector);
                    ("meta", PyDict (IngestDocs.meta
                                       (IngestDocs.document_of LoaderDemo.env_ok
                                          loader_entry)))]).
Proof.
  refine (loader_meta_stored_verbatim default_config stub LoaderDemo.env_ok loader_entry
            0%nat loader_request loader_state _ _ 0%nat stub_one_vector_per_text
            _ _ loader_run_ok); reflexivity.
Defined.

Lemma document_source_splits_witness :
  exists sfx,
    IngestDocs.entry_name loader_entry =
      IngestDocs.id (IngestDocs.document_of LoaderDemo.env_ok loader_entry) +:+ sfx /\
    dict_get "source"
      (IngestDocs.meta (IngestDocs.document_of LoaderDemo.env_ok loader_entry)) =
      Some (PyStr (IngestDocs.entry_name loader_entry)) /\
    (IngestDocs.str_lower sfx = ".md" \/ IngestDocs.str_lower sfx = ".txt" \/
     IngestDocs.str_lower sfx = ".rst") /\
    IngestDocs.id (IngestDocs.document_of LoaderDemo.env_ok loader_entry) <> "".
Proof.
  apply (document_source_splits LoaderDemo.env_ok loader_entry). reflexivity.
Defined.
